(** * GrMtnPower: a verification model of [get-gmp-data.py]

    The script is one straight line of Python: build a URL and a Basic
    Authorization header from six configuration strings, issue one GET,
    print two diagnostics, decode the body as JSON, touch two keys and dump
    the decoded object to a file.

    Python values are embedded as follows.
    - [str]: a Python string is a sequence of Unicode code points, here a
      [list Z]; [bytes] is a [list Z] of values below 256.
    - Exceptions are values of [exn]; a computation that can raise returns
      [pyresult].
    - The library calls that touch the outside world ([requests.get],
      [print], [Response.json], [open], [write], [close]) act on an explicit
      [World] and log what they do in its trace; the platform, what the
      network answers and whether a file can be opened are fields of the
      environment [Env].
    - [str.encode], [base64.b64encode], [json.dump] and the JSON decoder
      are modelled as functions: CPython's behaviour with the arguments the
      script passes.
    - Floating point numbers are not part of the model: a [pyobj] holds no
      float, and the decoder answers [NotModelled] on a text that holds
      one.  Integers are unbounded; the limit later versions of Python put
      on the number of digits when an integer is converted to text is not
      modelled. *)

From Stdlib Require Import ZArith Lia.
From Stdlib Require DecimalPos DecimalZ.
From stdpp Require Import base option list strings gmap.

Local Open Scope Z_scope.

(** ** Python strings and bytes *)

Definition str := list Z.
Definition bytes := list Z.

(** The code points of an (ASCII) literal of the source text. *)
Definition lit (s : string) : str :=
  (λ a, Z.of_N (Ascii.N_of_ascii a)) <$> String.list_ascii_of_string s.

(** Python's [+] on strings. *)
Definition str_add (a b : str) : str := a ++ b.
Infix "+ₛ" := str_add (at level 50, left associativity).

Definition is_surrogate (c : Z) : bool := (0xD800 <=? c) && (c <=? 0xDFFF).
Definition is_high_surrogate (c : Z) : bool := (0xD800 <=? c) && (c <=? 0xDBFF).
Definition is_low_surrogate (c : Z) : bool := (0xDC00 <=? c) && (c <=? 0xDFFF).

(** A code point a Python string can hold. *)
Definition is_codepoint (c : Z) : Prop := 0 <= c < 0x110000.
(** A Unicode scalar value: a code point that is not a surrogate. *)
Definition is_scalar (c : Z) : Prop := is_codepoint c ∧ is_surrogate c = false.
Definition is_byte (b : Z) : Prop := 0 <= b < 256.
Definition is_ascii (c : Z) : Prop := 0 <= c < 0x80.

(** ** Exceptions *)

Inductive transport_failure := DnsFailure | ConnectionRefused | TlsFailure.

Inductive exn :=
| UnicodeEncodeError
| UnicodeDecodeError
| TransportError (why : transport_failure)
| JSONDecodeError
| KeyError (key : str)
| TypeError
| OSError.

Inductive pyresult (A : Type) :=
| Ok (a : A)
| Raise (e : exn).
Arguments Ok {A} a.
Arguments Raise {A} e.

(** ** [str.encode("utf-8")] and [str(b, "utf-8")] *)

Module Utf8.

(** One code point.  Surrogates cannot be encoded (the strict error
    handler raises), and values outside the code space are no characters. *)
Definition encode_cp (c : Z) : option bytes :=
  if c <? 0 then None
  else if c <? 0x80 then Some [c]
  else if c <? 0x800 then Some [0xC0 + c / 64; 0x80 + c mod 64]
  else if c <? 0x10000 then
    if is_surrogate c then None
    else Some [0xE0 + c / 4096; 0x80 + (c / 64) mod 64; 0x80 + c mod 64]
  else if c <? 0x110000 then
    Some [0xF0 + c / 262144; 0x80 + (c / 4096) mod 64;
          0x80 + (c / 64) mod 64; 0x80 + c mod 64]
  else None.

Fixpoint encode (s : str) : option bytes :=
  match s with
  | [] => Some []
  | c :: s' =>
      match encode_cp c, encode s' with
      | Some bs, Some rest => Some (bs ++ rest)
      | _, _ => None
      end
  end.

Definition is_cont (b : Z) : bool := (0x80 <=? b) && (b <? 0xC0).

(** The strict decoder: no overlong forms, no surrogates, nothing above
    U+10FFFF. *)
Fixpoint decode (bs : bytes) : option str :=
  match bs with
  | [] => Some []
  | b0 :: t =>
      if (0 <=? b0) && (b0 <? 0x80) then (b0 ::.) <$> decode t
      else if (0xC2 <=? b0) && (b0 <? 0xE0) then
        match t with
        | b1 :: t1 =>
            if is_cont b1
            then (((b0 - 0xC0) * 64 + (b1 - 0x80)) ::.) <$> decode t1
            else None
        | _ => None
        end
      else if (0xE0 <=? b0) && (b0 <? 0xF0) then
        match t with
        | b1 :: b2 :: t2 =>
            let c := (b0 - 0xE0) * 4096 + (b1 - 0x80) * 64 + (b2 - 0x80) in
            if is_cont b1 && is_cont b2 && (0x800 <=? c) && negb (is_surrogate c)
            then (c ::.) <$> decode t2
            else None
        | _ => None
        end
      else if (0xF0 <=? b0) && (b0 <? 0xF5) then
        match t with
        | b1 :: b2 :: b3 :: t3 =>
            let c := (b0 - 0xF0) * 262144 + (b1 - 0x80) * 4096
                     + (b2 - 0x80) * 64 + (b3 - 0x80) in
            if is_cont b1 && is_cont b2 && is_cont b3
               && (0x10000 <=? c) && (c <? 0x110000)
            then (c ::.) <$> decode t3
            else None
        | _ => None
        end
      else None
  end.

End Utf8.

(** ** [base64.b64encode] and the standard decoder *)

Module Base64.

Definition pad : Z := 61.

(** The standard alphabet: A-Z, a-z, 0-9, [+], [/]. *)
Definition char (i : Z) : Z :=
  if i <? 26 then 65 + i
  else if i <? 52 then 97 + (i - 26)
  else if i <? 62 then 48 + (i - 52)
  else if i =? 62 then 43
  else 47.

Definition val (c : Z) : option Z :=
  if (65 <=? c) && (c <=? 90) then Some (c - 65)
  else if (97 <=? c) && (c <=? 122) then Some (c - 97 + 26)
  else if (48 <=? c) && (c <=? 57) then Some (c - 48 + 52)
  else if c =? 43 then Some 62
  else if c =? 47 then Some 63
  else None.

Fixpoint encode (bs : bytes) : bytes :=
  match bs with
  | [] => []
  | [a] => [char (a / 4); char ((a mod 4) * 16); pad; pad]
  | [a; b] =>
      [char (a / 4); char ((a mod 4) * 16 + b / 16); char ((b mod 16) * 4); pad]
  | a :: b :: c :: t =>
      char (a / 4) :: char ((a mod 4) * 16 + b / 16)
        :: char ((b mod 16) * 4 + c / 64) :: char (c mod 64) :: encode t
  end.

(** Decoding four characters at a time; padding is accepted in the last
    group only. *)
Fixpoint decode (cs : bytes) : option bytes :=
  match cs with
  | [] => Some []
  | c1 :: c2 :: c3 :: c4 :: t =>
      v1 ← val c1; v2 ← val c2;
      if c4 =? pad then
        match t with
        | [] =>
            if c3 =? pad then Some [v1 * 4 + v2 / 16]
            else v3 ← val c3;
                 Some [v1 * 4 + v2 / 16; (v2 mod 16) * 16 + v3 / 4]
        | _ => None
        end
      else
        v3 ← val c3; v4 ← val c4;
        rest ← decode t;
        Some (v1 * 4 + v2 / 16 :: (v2 mod 16) * 16 + v3 / 4
                :: (v3 mod 4) * 64 + v4 :: rest)
  | _ => None
  end.

End Base64.

(** ** The user-supplied variables *)

Record Config := {
  GMPaccount : str;
  apiKeyId : str;
  apiKeySecret : str;
  requestInterval : str;
  startDate : str;
  endDate : str;
}.

(** The values the script ships with: the three credentials are empty
    strings, for the user to fill in. *)
Definition shipped : Config := {|
  GMPaccount := [];
  apiKeyId := [];
  apiKeySecret := [];
  requestInterval := lit "hourly";
  startDate := lit "2016-11-05";
  endDate := lit "2016-11-05";
|}.

(** ** The request *)

Definition GMPapiURL : str := lit "https://api.greenmountainpower.com/api/v2/usage/".

(** [GMPapiURL + GMPaccount + "/" + requestInterval + "?startDate=" +
    startDate + "T00:00:00Z&endDate=" + endDate + "T23:59:59Z&temp=f"] *)
Definition GMPapi (c : Config) : str :=
  GMPapiURL +ₛ GMPaccount c +ₛ lit "/" +ₛ requestInterval c +ₛ lit "?startDate="
    +ₛ startDate c +ₛ lit "T00:00:00Z&endDate=" +ₛ endDate c
    +ₛ lit "T23:59:59Z&temp=f".

(** [apiKeyId + ":" + apiKeySecret] *)
Definition idSecret (c : Config) : str :=
  apiKeyId c +ₛ lit ":" +ₛ apiKeySecret c.

Definition str_encode_utf8 (s : str) : pyresult bytes :=
  match Utf8.encode s with
  | Some bs => Ok bs
  | None => Raise UnicodeEncodeError
  end.

Definition str_of_bytes_utf8 (bs : bytes) : pyresult str :=
  match Utf8.decode bs with
  | Some s => Ok s
  | None => Raise UnicodeDecodeError
  end.

(** [str(base64.b64encode(idSecret.encode("utf-8")), "utf-8")] *)
Definition b64Key (c : Config) : pyresult str :=
  match str_encode_utf8 (idSecret c) with
  | Ok bs => str_of_bytes_utf8 (Base64.encode bs)
  | Raise e => Raise e
  end.

(** A dict of header names and values. *)
Definition headers := list (str * str).

(** ["Basic %s" % b64Key] *)
Definition basic (b64Key : str) : str := lit "Basic " +ₛ b64Key.

(** [{"Authorization": "Basic %s" % b64Key}] *)
Definition reqHead (c : Config) : pyresult headers :=
  match b64Key c with
  | Ok k => Ok [(lit "Authorization", basic k)]
  | Raise e => Raise e
  end.

(** What a receiver of the header does to read the credentials back:
    strip the scheme, Base64-decode, UTF-8-decode, split on the first
    colon. *)
Fixpoint split_first_colon (s : str) : option (str * str) :=
  match s with
  | [] => None
  | c :: t =>
      if c =? 58 then Some ([], t)
      else '(a, b) ← split_first_colon t; Some (c :: a, b)
  end.

Definition strip_prefix (p s : str) : option str :=
  if decide (take (length p) s = p) then Some (drop (length p) s) else None.

Definition read_basic_auth (header : str) : option (str * str) :=
  payload ← strip_prefix (lit "Basic ") header;
  raw ← Utf8.encode payload;
  plain ← Base64.decode raw;
  text ← Utf8.decode plain;
  split_first_colon text.

(** ** Python objects

    What [Response.json()] can hand to the script, and what [json.dump]
    can be asked to write: [None], [bool], [int], [str], [list], [dict]
    with string keys in insertion order, and [PyObject], an instance of a
    class with no JSON form (it is neither subscriptable nor serialisable).
    A [float] has no constructor. *)

#[warnings="-register-all"]
Inductive pyobj :=
| PyNone
| PyBool (b : bool)
| PyInt (n : Z)
| PyStr (s : str)
| PyList (xs : list pyobj)
| PyDict (items : list (str * pyobj))
| PyObject.

(** [d[k]] on a dict: the first (and, in a real dict, only) entry. *)
Fixpoint dict_get (k : str) (items : list (str * pyobj)) : option pyobj :=
  match items with
  | [] => None
  | (k', v) :: rest => if decide (k = k') then Some v else dict_get k rest
  end.

(** [d[k] = v]: an existing key keeps its position. *)
Fixpoint dict_set (k : str) (v : pyobj) (items : list (str * pyobj))
  : list (str * pyobj) :=
  match items with
  | [] => [(k, v)]
  | (k', v') :: rest =>
      if decide (k = k') then (k, v) :: rest else (k', v') :: dict_set k v rest
  end.

(** [dict(pairs)] *)
Definition dict_of_pairs (pairs : list (str * pyobj)) : list (str * pyobj) :=
  foldl (λ d kv, dict_set kv.1 kv.2 d) [] pairs.

(** [o[k]] for a string [k]. *)
Definition getitem (o : pyobj) (k : str) : pyresult pyobj :=
  match o with
  | PyDict items =>
      match dict_get k items with
      | Some v => Ok v
      | None => Raise (KeyError k)
      end
  | _ => Raise TypeError
  end.

(** ** [json.dump]: the encoder *)

Module Json.

(** *** Strings: [encode_basestring_ascii] *)

Definition hexdigit (d : Z) : Z := if d <? 10 then 48 + d else 97 + (d - 10).

(** ['\\u{0:04x}'.format(n)] *)
Definition u_escape (n : Z) : str :=
  [92; 117; hexdigit (n / 4096); hexdigit ((n / 256) mod 16);
   hexdigit ((n / 16) mod 16); hexdigit (n mod 16)].

Definition escape_char (c : Z) : str :=
  if c =? 34 then [92; 34]
  else if c =? 92 then [92; 92]
  else if c =? 10 then [92; 110]
  else if c =? 13 then [92; 114]
  else if c =? 9 then [92; 116]
  else if c =? 8 then [92; 98]
  else if c =? 12 then [92; 102]
  else if (32 <=? c) && (c <=? 126) then [c]
  else if c <? 0x10000 then u_escape c
  else
    let n := c - 0x10000 in
    u_escape (0xD800 + (n / 1024) mod 1024) ++ u_escape (0xDC00 + n mod 1024).

Fixpoint escape (s : str) : str :=
  match s with
  | [] => []
  | c :: s' => escape_char c ++ escape s'
  end.

Definition encode_basestring_ascii (s : str) : str := 34 :: escape s ++ [34].

(** *** Integers: [int.__repr__] *)

Fixpoint uint_chars (u : Decimal.uint) : str :=
  match u with
  | Decimal.Nil => []
  | Decimal.D0 u => 48 :: uint_chars u
  | Decimal.D1 u => 49 :: uint_chars u
  | Decimal.D2 u => 50 :: uint_chars u
  | Decimal.D3 u => 51 :: uint_chars u
  | Decimal.D4 u => 52 :: uint_chars u
  | Decimal.D5 u => 53 :: uint_chars u
  | Decimal.D6 u => 54 :: uint_chars u
  | Decimal.D7 u => 55 :: uint_chars u
  | Decimal.D8 u => 56 :: uint_chars u
  | Decimal.D9 u => 57 :: uint_chars u
  end.

Definition int_repr (n : Z) : str :=
  match Z.to_int n with
  | Decimal.Pos u => uint_chars u
  | Decimal.Neg u => 45 :: uint_chars u
  end.

(** *** Values

    [json.dump(obj, fp)] writes the chunks of [iterencode(obj)] to [fp] one
    after the other.  An object with no JSON form raises [TypeError] when
    the encoder reaches it, so everything before it has been written by
    then: the result is the text produced and the exception, if any. *)

Definition emitted := (str * option exn)%type.

Definition emit (s : str) : emitted := (s, None).

Definition and_then (a b : emitted) : emitted :=
  match a.2 with
  | Some _ => a
  | None => (a.1 ++ b.1, b.2)
  end.
Infix "▷" := and_then (at level 61, left associativity).

Definition item_separator : str := lit ", ".
Definition key_separator : str := lit ": ".

Fixpoint iterencode (o : pyobj) : emitted :=
  match o with
  | PyNone => emit (lit "null")
  | PyBool true => emit (lit "true")
  | PyBool false => emit (lit "false")
  | PyInt n => emit (int_repr n)
  | PyStr s => emit (encode_basestring_ascii s)
  | PyList [] => emit (lit "[]")
  | PyList xs =>
      emit (lit "[")
        ▷ (fix each (first : bool) (xs : list pyobj) : emitted :=
             match xs with
             | [] => emit (lit "]")
             | x :: xs' =>
                 emit (if first then [] else item_separator)
                   ▷ iterencode x ▷ each false xs'
             end) true xs
  | PyDict [] => emit (lit "{}")
  | PyDict items =>
      emit (lit "{")
        ▷ (fix each (first : bool) (items : list (str * pyobj)) : emitted :=
             match items with
             | [] => emit (lit "}")
             | (k, v) :: items' =>
                 emit (if first then [] else item_separator)
                   ▷ emit (encode_basestring_ascii k) ▷ emit key_separator
                   ▷ iterencode v ▷ each false items'
             end) true items
  | PyObject => ([], Some TypeError)
  end.

(** The two loops, named. *)
Fixpoint iterencode_list (first : bool) (xs : list pyobj) : emitted :=
  match xs with
  | [] => emit (lit "]")
  | x :: xs' =>
      emit (if first then [] else item_separator)
        ▷ iterencode x ▷ iterencode_list false xs'
  end.

Fixpoint iterencode_dict (first : bool) (items : list (str * pyobj)) : emitted :=
  match items with
  | [] => emit (lit "}")
  | (k, v) :: items' =>
      emit (if first then [] else item_separator)
        ▷ emit (encode_basestring_ascii k) ▷ emit key_separator
        ▷ iterencode v ▷ iterencode_dict false items'
  end.

(** ** The JSON decoder ([json.loads] with its defaults) *)

Inductive parsed (A : Type) :=
| Parsed (a : A) (rest : str)
| Invalid       (** [JSONDecodeError] *)
| NotModelled   (** the text holds a float *)
| OutOfFuel.
Arguments Parsed {A} a rest.
Arguments Invalid {A}.
Arguments NotModelled {A}.
Arguments OutOfFuel {A}.

Definition is_ws (c : Z) : bool :=
  (c =? 32) || (c =? 9) || (c =? 10) || (c =? 13).

Fixpoint skip_ws (s : str) : str :=
  match s with
  | c :: t => if is_ws c then skip_ws t else s
  | [] => []
  end.

Definition is_digit (c : Z) : bool := (48 <=? c) && (c <=? 57).

(** *** Strings: [scanstring], strict *)

Definition hexval (c : Z) : option Z :=
  if is_digit c then Some (c - 48)
  else if (97 <=? c) && (c <=? 102) then Some (c - 87)
  else if (65 <=? c) && (c <=? 70) then Some (c - 55)
  else None.

Definition hex4 (a b c d : Z) : option Z :=
  x ← hexval a; y ← hexval b; z ← hexval c; w ← hexval d;
  Some (x * 4096 + y * 256 + z * 16 + w).

(** The [BACKSLASH] table. *)
Definition unescape (e : Z) : option Z :=
  if e =? 34 then Some 34
  else if e =? 92 then Some 92
  else if e =? 47 then Some 47
  else if e =? 98 then Some 8
  else if e =? 102 then Some 12
  else if e =? 110 then Some 10
  else if e =? 114 then Some 13
  else if e =? 116 then Some 9
  else None.

Definition push (c : Z) (r : option (str * str)) : option (str * str) :=
  '(x, rest) ← r; Some (c :: x, rest).

Definition join_surrogates (hi lo : Z) : Z :=
  0x10000 + (hi - 0xD800) * 1024 + (lo - 0xDC00).

(** [scanstring s] reads a string body up to its closing quote; [s] starts
    right after the opening quote. *)
Fixpoint scanstring (s : str) : option (str * str) :=
  match s with
  | [] => None
  | c :: t =>
      if c =? 34 then Some ([], t)
      else if c =? 92 then
        match t with
        | [] => None
        | e :: t1 =>
            if e =? 117 then
              match t1 with
              | h1 :: h2 :: h3 :: h4 :: t2 =>
                  match hex4 h1 h2 h3 h4 with
                  | None => None
                  | Some uni =>
                      if is_high_surrogate uni then
                        match t2 with
                        | b :: t3 =>
                            if b =? 92 then
                              match t3 with
                              | u :: t4 =>
                                  if u =? 117 then
                                    match t4 with
                                    | g1 :: g2 :: g3 :: g4 :: t5 =>
                                        match hex4 g1 g2 g3 g4 with
                                        | None => None
                                        | Some uni2 =>
                                            if is_low_surrogate uni2
                                            then push (join_surrogates uni uni2)
                                                      (scanstring t5)
                                            else push uni (scanstring t2)
                                        end
                                    | _ => None
                                    end
                                  else push uni (scanstring t2)
                              | [] => push uni (scanstring t2)
                              end
                            else push uni (scanstring t2)
                        | [] => push uni (scanstring t2)
                        end
                      else push uni (scanstring t2)
                  end
              | _ => None
              end
            else
              match unescape e with
              | Some x => push x (scanstring t1)
              | None => None
              end
        end
      else if c <? 32 then None
      else push c (scanstring t)
  end.

(** *** Numbers: [NUMBER_RE] *)

Fixpoint span_digits (s : str) : str * str :=
  match s with
  | c :: t =>
      if is_digit c then let '(ds, r) := span_digits t in (c :: ds, r)
      else ([], s)
  | [] => ([], [])
  end.

Definition decimal_digit (c : Z) (u : Decimal.uint) : Decimal.uint :=
  if c =? 48 then Decimal.D0 u
  else if c =? 49 then Decimal.D1 u
  else if c =? 50 then Decimal.D2 u
  else if c =? 51 then Decimal.D3 u
  else if c =? 52 then Decimal.D4 u
  else if c =? 53 then Decimal.D5 u
  else if c =? 54 then Decimal.D6 u
  else if c =? 55 then Decimal.D7 u
  else if c =? 56 then Decimal.D8 u
  else Decimal.D9 u.

Fixpoint uint_of_digits (ds : str) : Decimal.uint :=
  match ds with
  | [] => Decimal.Nil
  | c :: r => decimal_digit c (uint_of_digits r)
  end.

(** The integer part of a number: an optional minus sign, then either a
    single 0 or a non-zero digit and any digits.  Result: sign, digits,
    what follows. *)
Definition match_integer (s : str) : option (bool * str * str) :=
  let '(neg, s1) :=
    match s with
    | c :: t => if c =? 45 then (true, t) else (false, s)
    | [] => (false, s)
    end in
  match s1 with
  | d :: t =>
      if d =? 48 then Some (neg, [48], t)
      else if is_digit d then
        let '(ds, r) := span_digits t in Some (neg, d :: ds, r)
      else None
  | [] => None
  end.

(** A fraction: a dot and at least one digit.  Result: what follows the
    fraction, when there is one. *)
Definition match_frac (s : str) : option str :=
  match s with
  | c :: t =>
      if c =? 46 then
        match span_digits t with
        | ([], _) => None
        | (_, r) => Some r
        end
      else None
  | [] => None
  end.

(** An exponent: e or E, an optional sign, at least one digit. *)
Definition match_exp (s : str) : option str :=
  match s with
  | c :: t =>
      if (c =? 101) || (c =? 69) then
        let t' :=
          match t with
          | g :: t2 => if (g =? 45) || (g =? 43) then t2 else t
          | [] => t
          end in
        match span_digits t' with
        | ([], _) => None
        | (_, r) => Some r
        end
      else None
  | [] => None
  end.

(** [int(integer)] *)
Definition parse_int (neg : bool) (ds : str) : Z :=
  let u := uint_of_digits ds in
  Z.of_int (if neg then Decimal.Neg u else Decimal.Pos u).

Definition starts_with (p s : str) : bool := bool_decide (take (length p) s = p).

Definition scan_number (s : str) : parsed pyobj :=
  match match_integer s with
  | Some (neg, ds, r) =>
      match match_frac r with
      | Some _ => NotModelled
      | None =>
          match match_exp r with
          | Some _ => NotModelled
          | None => Parsed (PyInt (parse_int neg ds)) r
          end
      end
  | None =>
      if starts_with (lit "NaN") s || starts_with (lit "Infinity") s
         || starts_with (lit "-Infinity") s
      then NotModelled
      else Invalid
  end.

(** *** Values: [scan_once], [JSONArray], [JSONObject] *)

Fixpoint scan_once (fuel : nat) (s : str) : parsed pyobj :=
  match fuel with
  | O => OutOfFuel
  | S fuel =>
      match s with
      | [] => Invalid
      | c :: t =>
          if c =? 34 then
            match scanstring t with
            | Some (x, r) => Parsed (PyStr x) r
            | None => Invalid
            end
          else if c =? 123 then
            match skip_ws t with
            | c1 :: r =>
                if c1 =? 125 then Parsed (PyDict []) r
                else if c1 =? 34 then
                  match members fuel r with
                  | Parsed pairs r' => Parsed (PyDict (dict_of_pairs pairs)) r'
                  | Invalid => Invalid
                  | NotModelled => NotModelled
                  | OutOfFuel => OutOfFuel
                  end
                else Invalid
            | [] => Invalid
            end
          else if c =? 91 then
            match skip_ws t with
            | c1 :: r =>
                if c1 =? 93 then Parsed (PyList []) r
                else
                  match elements fuel (c1 :: r) with
                  | Parsed xs r' => Parsed (PyList xs) r'
                  | Invalid => Invalid
                  | NotModelled => NotModelled
                  | OutOfFuel => OutOfFuel
                  end
            | [] => Invalid
            end
          else if starts_with (lit "null") s then Parsed PyNone (drop 4 s)
          else if starts_with (lit "true") s then Parsed (PyBool true) (drop 4 s)
          else if starts_with (lit "false") s then Parsed (PyBool false) (drop 5 s)
          else scan_number s
      end
  end

(** the loop of [JSONArray]; [s] is at the start of a value *)
with elements (fuel : nat) (s : str) : parsed (list pyobj) :=
  match fuel with
  | O => OutOfFuel
  | S fuel =>
      match scan_once fuel s with
      | Parsed v r =>
          match skip_ws r with
          | c :: r1 =>
              if c =? 93 then Parsed [v] r1
              else if c =? 44 then
                match elements fuel (skip_ws r1) with
                | Parsed vs r2 => Parsed (v :: vs) r2
                | other => other
                end
              else Invalid
          | [] => Invalid
          end
      | Invalid => Invalid
      | NotModelled => NotModelled
      | OutOfFuel => OutOfFuel
      end
  end

(** the loop of [JSONObject]; [s] is right after the opening quote of a key *)
with members (fuel : nat) (s : str) : parsed (list (str * pyobj)) :=
  match fuel with
  | O => OutOfFuel
  | S fuel =>
      match scanstring s with
      | None => Invalid
      | Some (k, r) =>
          match skip_ws r with
          | c :: r1 =>
              if c =? 58 then
                match scan_once fuel (skip_ws r1) with
                | Parsed v r2 =>
                    match skip_ws r2 with
                    | c2 :: r3 =>
                        if c2 =? 125 then Parsed [(k, v)] r3
                        else if c2 =? 44 then
                          match skip_ws r3 with
                          | q :: r4 =>
                              if q =? 34 then
                                match members fuel r4 with
                                | Parsed kvs r5 => Parsed ((k, v) :: kvs) r5
                                | other => other
                                end
                              else Invalid
                          | [] => Invalid
                          end
                        else Invalid
                    | [] => Invalid
                    end
                | Invalid => Invalid
                | NotModelled => NotModelled
                | OutOfFuel => OutOfFuel
                end
              else Invalid
          | [] => Invalid
          end
      end
  end.

(** [json.loads(s)]: one value, white space around it, nothing else.  The
    fuel is more than any text of that length can use. *)
Definition loads (s : str) : parsed pyobj :=
  match scan_once (S (length s)) (skip_ws s) with
  | Parsed v r =>
      match skip_ws r with
      | [] => Parsed v []
      | _ => Invalid
      end
  | other => other
  end.

End Json.

(** ** Vocabulary for the statements about JSON text *)

(** A literal between double quotes. *)
Definition quoted (s : string) : str := 34 :: lit s ++ [34].

(** A Python string as a JSON decoder can produce it: code points, and no
    high surrogate directly followed by a low surrogate (the decoder joins
    such a pair into one character). *)
Fixpoint json_str (s : str) : Prop :=
  match s with
  | [] => True
  | c :: t =>
      is_codepoint c
      ∧ (is_high_surrogate c = true →
         match t with c' :: _ => is_low_surrogate c' = false | [] => True end)
      ∧ json_str t
  end.

(** A Python object that is a JSON value: no [PyObject] inside, strings as
    above, and no key twice in a dict. *)
Fixpoint json_value (o : pyobj) : Prop :=
  match o with
  | PyNone | PyBool _ | PyInt _ => True
  | PyStr s => json_str s
  | PyList xs =>
      (fix all (xs : list pyobj) : Prop :=
         match xs with
         | [] => True
         | x :: xs' => json_value x ∧ all xs'
         end) xs
  | PyDict items =>
      NoDup items.*1
      ∧ (fix all (items : list (str * pyobj)) : Prop :=
           match items with
           | [] => True
           | (k, v) :: items' => json_str k ∧ json_value v ∧ all items'
           end) items
  | PyObject => False
  end.

Fixpoint json_values (xs : list pyobj) : Prop :=
  match xs with
  | [] => True
  | x :: xs' => json_value x ∧ json_values xs'
  end.

Fixpoint json_items (items : list (str * pyobj)) : Prop :=
  match items with
  | [] => True
  | (k, v) :: items' => json_str k ∧ json_value v ∧ json_items items'
  end.

(** The number of nodes of an object, which bounds both the fuel the
    decoder needs and, from below, the length of the encoded text. *)
Fixpoint weight (o : pyobj) : nat :=
  match o with
  | PyList xs =>
      S ((fix sum (xs : list pyobj) : nat :=
            match xs with
            | [] => O
            | x :: xs' => S (weight x + sum xs')
            end) xs)
  | PyDict items =>
      S ((fix sum (items : list (str * pyobj)) : nat :=
            match items with
            | [] => O
            | (_, v) :: items' => S (weight v + sum items')
            end) items)
  | _ => 1%nat
  end.

Fixpoint weights (xs : list pyobj) : nat :=
  match xs with
  | [] => O
  | x :: xs' => S (weight x + weights xs')
  end.

Fixpoint weight_items (items : list (str * pyobj)) : nat :=
  match items with
  | [] => O
  | (_, v) :: items' => S (weight v + weight_items items')
  end.

(** What [scanstring] looks for after a high surrogate escape: a second
    escape holding a low surrogate. *)
Definition low_ahead (t2 : str) : option (option (Z * str)) :=
  match t2 with
  | b :: t3 =>
      if b =? 92 then
        match t3 with
        | u :: t4 =>
            if u =? 117 then
              match t4 with
              | g1 :: g2 :: g3 :: g4 :: t5 =>
                  match Json.hex4 g1 g2 g3 g4 with
                  | None => None
                  | Some uni2 =>
                      if is_low_surrogate uni2 then Some (Some (uni2, t5))
                      else Some None
                  end
              | _ => None
              end
            else Some None
        | [] => Some None
        end
      else Some None
  | [] => Some None
  end.

(** Text that can follow a number without being read as part of it. *)
Definition ends_number (rest : str) : Prop :=
  match rest with
  | [] => True
  | c :: _ => Json.is_digit c = false ∧ c ≠ 46 ∧ c ≠ 101 ∧ c ≠ 69
  end.

(** A decimal numeral without a leading zero. *)
Definition starts_nonzero (u : Decimal.uint) : Prop :=
  match u with
  | Decimal.Nil | Decimal.D0 _ => False
  | _ => True
  end.

(** The text [json.dump] writes for an object. *)
Definition dumps (o : pyobj) : str := (Json.iterencode o).1.

(** Decoding the text written for [o] gives [o] back, whatever follows. *)
Definition roundtrips (o : pyobj) : Prop :=
  ∀ fuel rest, (weight o ≤ fuel)%nat → ends_number rest →
    Json.scan_once fuel (dumps o ++ rest) = Json.Parsed o rest.

(** The same two predicates as functions, to decide them by computation. *)
Fixpoint json_strb (s : str) : bool :=
  match s with
  | [] => true
  | c :: t =>
      (0 <=? c) && (c <? 0x110000)
      && (negb (is_high_surrogate c)
          || match t with c' :: _ => negb (is_low_surrogate c') | [] => true end)
      && json_strb t
  end.

Fixpoint json_valueb (o : pyobj) : bool :=
  match o with
  | PyNone | PyBool _ | PyInt _ => true
  | PyStr s => json_strb s
  | PyList xs =>
      (fix all (xs : list pyobj) : bool :=
         match xs with
         | [] => true
         | x :: xs' => json_valueb x && all xs'
         end) xs
  | PyDict items =>
      bool_decide (NoDup items.*1)
      && (fix all (items : list (str * pyobj)) : bool :=
            match items with
            | [] => true
            | (k, v) :: items' => json_strb k && json_valueb v && all items'
            end) items
  | PyObject => false
  end.

(** A printable ASCII character: the same byte in every ASCII-compatible
    encoding, and no line end for a text file to translate. *)
Definition printable (c : Z) : Prop := 32 <= c <= 126.

(** ** String literals of the source text

    The script's literals are plain ASCII; the only one with a backslash is
    the name of the output file.  [py_literal] decodes the body of a Python
    string literal: the recognised escape sequences are replaced, and a
    backslash that starts no escape sequence stays in the string together
    with the character after it.  [None] is a literal Python rejects (or
    a named character, which is not modelled). *)

Definition octval (c : Z) : option Z :=
  if (48 <=? c) && (c <=? 55) then Some (c - 48) else None.

Fixpoint hex_digits (n : nat) (s : str) (acc : Z) : option (Z * str) :=
  match n with
  | O => Some (acc, s)
  | S n' =>
      match s with
      | c :: t =>
          match Json.hexval c with
          | Some v => hex_digits n' t (acc * 16 + v)
          | None => None
          end
      | [] => None
      end
  end.

(** The escape sequence that starts right after a backslash: its value
    and how many characters it takes, [Some None] when the backslash
    starts no escape sequence. *)
Definition py_escape (t : str) : option (option (list Z * nat)) :=
  match t with
  | [] => None
  | e :: t1 =>
      if e =? 10 then Some (Some ([], 1%nat))
      else if e =? 92 then Some (Some ([92], 1%nat))
      else if e =? 39 then Some (Some ([39], 1%nat))
      else if e =? 34 then Some (Some ([34], 1%nat))
      else if e =? 97 then Some (Some ([7], 1%nat))
      else if e =? 98 then Some (Some ([8], 1%nat))
      else if e =? 102 then Some (Some ([12], 1%nat))
      else if e =? 110 then Some (Some ([10], 1%nat))
      else if e =? 114 then Some (Some ([13], 1%nat))
      else if e =? 116 then Some (Some ([9], 1%nat))
      else if e =? 118 then Some (Some ([11], 1%nat))
      else if e =? 120 then
        match hex_digits 2 t1 0 with
        | Some (v, _) => Some (Some ([v], 3%nat))
        | None => None
        end
      else if e =? 117 then
        match hex_digits 4 t1 0 with
        | Some (v, _) => Some (Some ([v], 5%nat))
        | None => None
        end
      else if e =? 85 then
        match hex_digits 8 t1 0 with
        | Some (v, _) => if v <? 0x110000 then Some (Some ([v], 9%nat)) else None
        | None => None
        end
      else if e =? 78 then None
      else
        match octval e with
        | Some a =>
            match t1 with
            | b :: t2 =>
                match octval b with
                | Some b' =>
                    match t2 with
                    | c :: _ =>
                        match octval c with
                        | Some c' => Some (Some ([a * 64 + b' * 8 + c'], 3%nat))
                        | None => Some (Some ([a * 8 + b'], 2%nat))
                        end
                    | [] => Some (Some ([a * 8 + b'], 2%nat))
                    end
                | None => Some (Some ([a], 1%nat))
                end
            | [] => Some (Some ([a], 1%nat))
            end
        | None => Some None
        end
  end.

Fixpoint py_literal_fuel (fuel : nat) (s : str) : option str :=
  match fuel with
  | O => match s with [] => Some [] | _ => None end
  | S fuel' =>
      match s with
      | [] => Some []
      | c :: t =>
          if c =? 92 then
            match py_escape t with
            | None => None
            | Some None => (92 ::.) <$> py_literal_fuel fuel' t
            | Some (Some (v, n)) => (v ++.) <$> py_literal_fuel fuel' (drop n t)
            end
          else (c ::.) <$> py_literal_fuel fuel' t
      end
  end.

Definition py_literal (body : string) : option str :=
  py_literal_fuel (length (lit body)) (lit body).

(** ** Paths

    How the operating system reads a path name: its components.  Windows
    separates them by a backslash or a slash, every other system by a slash
    only. *)

Inductive platform := Windows | Posix.

Definition is_sep (p : platform) (c : Z) : bool :=
  match p with
  | Windows => (c =? 92) || (c =? 47)
  | Posix => c =? 47
  end.

Fixpoint components (p : platform) (path : str) : list str :=
  match path with
  | [] => [[]]
  | c :: t =>
      if is_sep p c then [] :: components p t
      else
        match components p t with
        | h :: r => (c :: h) :: r
        | [] => [[c]]
        end
  end.

(** A file is found by the components of its path, relative to the
    directory the script is started in. *)
Definition location := list str.

(** ** The world *)

(** A [requests.Response] as far as the script looks at it: the status
    code, the elapsed time (a [timedelta], here its microseconds), and what
    [.json()] does: return the decoded body or raise. *)
Record Response := {
  status_code : Z;
  elapsed : Z;
  json : pyresult pyobj;
}.

(** What [print] is given. [total_seconds()] is a float: the entry records
    the [timedelta] it was computed from. *)
Inductive printed :=
| PInt (n : Z)
| PTotalSeconds (microseconds : Z).

Inductive event :=
| EvGet (url : str) (hs : headers)
| EvPrint (x : printed)
| EvJson
| EvOpen (path : str)
| EvWrite (text : str)
| EvClose (path : str).

(** What the script cannot control: the platform, the answer of the
    network (by URL and headers), and whether a file can be
    opened for writing. *)
Record Env := {
  os : platform;
  network : str → headers → pyresult Response;
  can_open : location → bool;
}.

(** What the script changes: the files, the handles that are open, the
    room left on the disk (in characters), and the trace of what it did. *)
Record World := {
  files : gmap location str;
  open_files : list location;
  room : nat;
  trace : list event;
}.

Definition log (e : event) (w : World) : World :=
  {| files := files w; open_files := open_files w; room := room w;
     trace := trace w ++ [e] |}.

(** The console: what has been printed, in order. *)
Definition stdout (w : World) : list printed :=
  omap (λ e, match e with EvPrint x => Some x | _ => None end) (trace w).

(** ** Computations that can raise and change the world *)

Definition M (A : Type) : Type := Env → World → pyresult A * World.

Definition ret {A} (a : A) : M A := λ _ w, (Ok a, w).

Definition raise {A} (e : exn) : M A := λ _ w, (Raise e, w).

Definition bind {A B} (m : M A) (k : A → M B) : M B :=
  λ env w,
    match m env w with
    | (Ok a, w') => k a env w'
    | (Raise e, w') => (Raise e, w')
    end.

Notation "x ⇐ m ;; k" := (bind m (λ x, k))
  (at level 100, m at next level, right associativity).
Notation "m ;;; k" := (bind m (λ _, k))
  (at level 100, right associativity).

(** A step that cannot touch the world. *)
Definition lift {A} (r : pyresult A) : M A := λ _ w, (r, w).

(** [try: m finally: c] *)
Definition finally {A} (m : M A) (c : M unit) : M A :=
  λ env w,
    match m env w with
    | (r, w1) =>
        match c env w1 with
        | (Ok _, w2) => (r, w2)
        | (Raise e, w2) => (Raise e, w2)
        end
    end.

(** *** The library calls *)

(** [requests.get(url, headers = hs)] *)
Definition requests_get (url : str) (hs : headers) : M Response :=
  λ env w, (network env url hs, log (EvGet url hs) w).

(** [print(x)] *)
Definition print (x : printed) : M unit :=
  λ _ w, (Ok (), log (EvPrint x) w).

(** [r.json()] *)
Definition Response_json (r : Response) : M pyobj :=
  λ _ w, (json r, log EvJson w).

(** [o[k]], the value thrown away *)
Definition subscript (o : pyobj) (k : str) : M unit :=
  lift (match getitem o k with Ok _ => Ok () | Raise e => Raise e end).

(** [open(path, "w")]: the file is created or cut to nothing. *)
Definition open_w (path : str) : M location :=
  λ env w,
    let loc := components (os env) path in
    if can_open env loc then
      (Ok loc,
       {| files := <[loc := []]> (files w);
          open_files := loc :: open_files w;
          room := room w;
          trace := trace w ++ [EvOpen path] |})
    else (Raise OSError, log (EvOpen path) w).

(** [f.write(text)]: when the disk fills up, what fits is written and
    [OSError] is raised. *)
Definition write (f : location) (text : str) : M unit :=
  λ _ w,
    let old := default [] (files w !! f) in
    let fits := take (room w) text in
    (if decide (length text ≤ room w)%nat then Ok () else Raise OSError,
     {| files := <[f := old ++ fits]> (files w);
        open_files := open_files w;
        room := room w - length fits;
        trace := trace w ++ [EvWrite fits] |}).

(** [f.close()] *)
Fixpoint remove_first (f : location) (l : list location) : list location :=
  match l with
  | [] => []
  | g :: l' => if decide (f = g) then l' else g :: remove_first f l'
  end.

Definition close (f : location) (path : str) : M unit :=
  λ _ w,
    (Ok (),
     {| files := files w; open_files := remove_first f (open_files w);
        room := room w; trace := trace w ++ [EvClose path] |}).

(** [with open(path, "w") as f: body] *)
Definition with_open {A} (path : str) (body : location → M A) : M A :=
  f ⇐ open_w path ;; finally (body f) (close f path).

(** [json.dump(o, f)]: the text the encoder produces goes to the file; an
    object it cannot encode raises after the text before it is written. *)
Definition json_dump (o : pyobj) (f : location) : M unit :=
  let '(text, failure) := Json.iterencode o in
  write f text ;;;
  match failure with
  | Some e => raise e
  | None => ret ()
  end.

(** ** The script *)

(** The literal ["..\dat4.json"] of the source. *)
Definition dat4 : str := default [] (py_literal "..\dat4.json").

(** The last two lines, the persist step:
    [with open("..\dat4.json", "w") as outfile: json.dump(json_GMPcontent, outfile)] *)
Definition persist (json_GMPcontent : pyobj) : M unit :=
  with_open dat4 (λ outfile, json_dump json_GMPcontent outfile).

Definition main (c : Config) : M unit :=
  reqHead ⇐ lift (reqHead c) ;;
  GMPcontent ⇐ requests_get (GMPapi c) reqHead ;;
  print (PInt (status_code GMPcontent)) ;;;
  print (PTotalSeconds (elapsed GMPcontent)) ;;;
  json_GMPcontent ⇐ Response_json GMPcontent ;;
  subscript json_GMPcontent (lit "accountNumber") ;;;
  subscript json_GMPcontent (lit "intervals") ;;;
  persist json_GMPcontent.

(** Where the output goes. *)
Definition outfile (env : Env) : location := components (os env) dat4.

(** What a run adds to the trace. *)
Definition events (c : Config) (env : Env) (w : World) : list event :=
  drop (length (trace w)) (trace (main c env w).2).

(** The requests in a list of events. *)
Definition requests (evs : list event) : list (str * headers) :=
  omap (λ e, match e with EvGet u a => Some (u, a) | _ => None end) evs.

Definition prints (evs : list event) : list printed :=
  omap (λ e, match e with EvPrint x => Some x | _ => None end) evs.

(** A world before the script has run. *)
Definition fresh (fs : gmap location str) (free : nat) : World :=
  {| files := fs; open_files := []; room := free; trace := [] |}.

(** The world once a response [r] to the request with header [h] has been
    received, its two diagnostics printed and [r.json()] called. *)
Definition decoded (c : Config) (h : headers) (r : Response) (w : World)
  : World :=
  log EvJson
    (log (EvPrint (PTotalSeconds (elapsed r)))
       (log (EvPrint (PInt (status_code r)))
          (log (EvGet (GMPapi c) h) w))).

(** What the persist step adds to the trace. *)
Definition persist_events (o : pyobj) (env : Env) (w : World) : list event :=
  if can_open env (outfile env)
  then [EvOpen dat4; EvWrite (take (room w) (Json.iterencode o).1); EvClose dat4]
  else [EvOpen dat4].

(** ** Mocked surroundings, for the examples *)

(** The body [{"accountNumber": "A1", "intervals": [1, 2, 3]}]. *)
Definition example_body : pyobj :=
  PyDict [(lit "accountNumber", PyStr (lit "A1"));
          (lit "intervals", PyList [PyInt 1; PyInt 2; PyInt 3])].

Definition respond (code : Z) (body : pyresult pyobj) : Response :=
  {| status_code := code; elapsed := 250000; json := body |}.

(** A network that gives one answer to every request, and a file system
    that lets every file be opened. *)
Definition mock (p : platform) (answer : pyresult Response) : Env :=
  {| os := p; network := λ _ _, answer; can_open := λ _, true |}.

(** The headers of the shipped configuration: the Base64 text of a lone
    colon. *)
Definition shipped_headers : headers :=
  [(lit "Authorization", lit "Basic Og==")].

Definition with_credentials (id secret : str) : Config :=
  {| GMPaccount := lit "12345"; apiKeyId := id; apiKeySecret := secret;
     requestInterval := lit "daily"; startDate := lit "2019-10-01";
     endDate := lit "2019-10-28" |}.

(** The template of the request URL, as the specification words it. *)
Definition url_template (account interval start stop : str) : str :=
  lit "https://api.greenmountainpower.com/api/v2/usage/" ++ account ++ lit "/"
    ++ interval ++ lit "?startDate=" ++ start ++ lit "T00:00:00Z&endDate="
    ++ stop ++ lit "T23:59:59Z&temp=f".

(** Everything that has to go well for the script to end normally. *)
Definition goes_well (c : Config) (env : Env) (w : World)
    (h : headers) (r : Response) (o : pyobj) : Prop :=
  reqHead c = Ok h
  ∧ network env (GMPapi c) h = Ok r
  ∧ json r = Ok o
  ∧ (∃ items, o = PyDict items
               ∧ is_Some (dict_get (lit "accountNumber") items)
               ∧ is_Some (dict_get (lit "intervals") items))
  ∧ can_open env (outfile env) = true
  ∧ (Json.iterencode o).2 = None
  ∧ (length (dumps o) ≤ room w)%nat.

(** ** Vocabulary for the further properties *)

(** A character of Base64 text: one of the 64 digits, or the padding. *)
Definition b64_alphabet (c : Z) : Prop :=
  is_Some (Base64.val c) ∨ c = Base64.pad.

(** A mocked network as in [mock], on a file system that refuses to open
    any file for writing. *)
Definition read_only (p : platform) (answer : pyresult Response) : Env :=
  {| os := p; network := λ _ _, answer; can_open := λ _, false |}.

(** A body with both keys and a value [json.dump] cannot write. *)
Definition unwritable_body : pyobj :=
  PyDict [(lit "accountNumber", PyStr (lit "A1"));
          (lit "intervals", PyList [PyInt 1; PyObject; PyInt 3])].

(* ================================================================= *)
(** * Facts *)

Example GMPapi_shipped :
  GMPapi shipped = lit "https://api.greenmountainpower.com/api/v2/usage//hourly?startDate=2016-11-05T00:00:00Z&endDate=2016-11-05T23:59:59Z&temp=f".
Proof. reflexivity. Qed.

Example reqHead_shipped :
  reqHead shipped = Ok [(lit "Authorization", lit "Basic Og==")].
Proof. reflexivity. Qed.

Example utf8_vectors :
  Utf8.encode [0x24; 0xA3; 0x20AC; 0x10348]
  = Some [0x24; 0xC2; 0xA3; 0xE2; 0x82; 0xAC; 0xF0; 0x90; 0x8D; 0x88]
  ∧ Utf8.encode [0x61; 0xD800] = None
  ∧ Utf8.decode [0xC0; 0x80] = None
  ∧ Utf8.decode [0xED; 0xA0; 0x80] = None.
Proof. vm_compute. done. Qed.

Example base64_vectors :
  Base64.encode (lit "Man") = lit "TWFu"
  ∧ Base64.encode (lit "Ma") = lit "TWE="
  ∧ Base64.encode (lit "M") = lit "TQ=="
  ∧ Base64.decode (lit "TWE=") = Some (lit "Ma")
  ∧ Base64.decode (lit "TW=u") = None.
Proof. vm_compute. done. Qed.

Example read_basic_auth_ex :
  read_basic_auth (lit "Basic QWxhZGRpbjpvcGVuIHNlc2FtZQ==")
  = Some (lit "Aladdin", lit "open sesame").
Proof. vm_compute. reflexivity. Qed.

(** ** Deciding comparisons by arithmetic *)

Ltac Zify.zify_post_hook ::= Z.to_euclidean_division_equations.

Ltac cmp_lia :=
  repeat match goal with
  | |- context [?a <? ?b] =>
      first [ rewrite (proj2 (Z.ltb_lt a b)) by lia
            | rewrite (proj2 (Z.ltb_ge a b)) by lia ]
  | |- context [?a <=? ?b] =>
      first [ rewrite (proj2 (Z.leb_le a b)) by lia
            | rewrite (proj2 (Z.leb_gt a b)) by lia ]
  | |- context [?a =? ?b] =>
      first [ rewrite (proj2 (Z.eqb_eq a b)) by lia
            | rewrite (proj2 (Z.eqb_neq a b)) by lia ]
  end.

(** ** UTF-8 *)

Lemma surrogate_false c : is_surrogate c = false ↔ (c < 0xD800 ∨ 0xDFFF < c).
Proof. unfold is_surrogate. rewrite andb_false_iff, Z.leb_gt, Z.leb_gt. lia. Qed.

Lemma surrogate_true c : is_surrogate c = true ↔ 0xD800 <= c <= 0xDFFF.
Proof. unfold is_surrogate. rewrite andb_true_iff, Z.leb_le, Z.leb_le. lia. Qed.

Lemma utf8_encode_cp_scalar c :
  is_scalar c → is_Some (Utf8.encode_cp c).
Proof.
  intros [[H0 H1] Hs]. unfold Utf8.encode_cp. rewrite Hs.
  cmp_lia. repeat (case_match; try done).
Qed.

Lemma utf8_encode_cp_Some c bs :
  Utf8.encode_cp c = Some bs → is_scalar c.
Proof.
  unfold Utf8.encode_cp, is_scalar, is_codepoint. intros H.
  repeat (case_match; try done);
    repeat match goal with
    | H : (_ <? _) = true |- _ => apply Z.ltb_lt in H
    | H : (_ <? _) = false |- _ => apply Z.ltb_ge in H
    end; (split; [lia|]); try done; apply surrogate_false; lia.
Qed.

Lemma utf8_encode_cp_bytes c bs :
  Utf8.encode_cp c = Some bs → Forall is_byte bs.
Proof.
  unfold Utf8.encode_cp, is_byte. intros H.
  repeat (case_match; try done);
    repeat match goal with
    | H : (_ <? _) = true |- _ => apply Z.ltb_lt in H
    | H : (_ <? _) = false |- _ => apply Z.ltb_ge in H
    | H : Some _ = Some _ |- _ => injection H as <-
    end; repeat constructor; lia.
Qed.

Lemma utf8_decode_cp c bs rest :
  Utf8.encode_cp c = Some bs →
  Utf8.decode (bs ++ rest) = (c ::.) <$> Utf8.decode rest.
Proof.
  intros H. pose proof (utf8_encode_cp_Some _ _ H) as [[H0 H1] Hs].
  apply surrogate_false in Hs.
  unfold Utf8.encode_cp in H.
  repeat (case_match; try done);
    repeat match goal with
    | H : (_ <? _) = true |- _ => apply Z.ltb_lt in H
    | H : (_ <? _) = false |- _ => apply Z.ltb_ge in H
    | H : Some _ = Some _ |- _ => injection H as <-
    | H : is_surrogate _ = _ |- _ => clear H
    end; cbn [app Utf8.decode]; unfold Utf8.is_cont;
    cmp_lia; cbn [andb negb]; cbv zeta;
    try match goal with
    | |- context [cons ?e <$> _] => progress replace e with c by lia
    end;
    unfold is_surrogate; destruct Hs; cmp_lia; reflexivity.
Qed.

Lemma utf8_encode_Some s :
  Forall is_scalar s → is_Some (Utf8.encode s).
Proof.
  induction 1 as [|c s Hc _ [bs IH]]; cbn [Utf8.encode]; [by eexists|].
  destruct (utf8_encode_cp_scalar c Hc) as [b ->]. rewrite IH. by eexists.
Qed.

Lemma utf8_encode_scalar s bs :
  Utf8.encode s = Some bs → Forall is_scalar s.
Proof.
  revert bs. induction s as [|c s IH]; intros bs; cbn [Utf8.encode]; [constructor|].
  destruct (Utf8.encode_cp c) eqn:Hc; [|done].
  destruct (Utf8.encode s) eqn:Hs; [|done]. intros _.
  constructor; eauto using utf8_encode_cp_Some.
Qed.

Lemma utf8_encode_bytes s bs :
  Utf8.encode s = Some bs → Forall is_byte bs.
Proof.
  revert bs. induction s as [|c s IH]; intros bs; cbn [Utf8.encode].
  - intros [= <-]. constructor.
  - destruct (Utf8.encode_cp c) eqn:Hc; [|done].
    destruct (Utf8.encode s) eqn:Hs; [|done]. intros [= <-].
    apply Forall_app. eauto using utf8_encode_cp_bytes.
Qed.

Lemma utf8_decode_encode s bs :
  Utf8.encode s = Some bs → Utf8.decode bs = Some s.
Proof.
  revert bs. induction s as [|c s IH]; intros bs; cbn [Utf8.encode].
  - by intros [= <-].
  - destruct (Utf8.encode_cp c) eqn:Hc; [|done].
    destruct (Utf8.encode s) eqn:Hs; [|done]. intros [= <-].
    rewrite (utf8_decode_cp _ _ _ Hc), (IH _ eq_refl). done.
Qed.

Lemma utf8_encode_app s t :
  Utf8.encode (s ++ t) = bs ← Utf8.encode s; bt ← Utf8.encode t; Some (bs ++ bt).
Proof.
  induction s as [|c s IH]; cbn [app Utf8.encode].
  - cbn. by destruct (Utf8.encode t).
  - rewrite IH. destruct (Utf8.encode_cp c); [|done].
    destruct (Utf8.encode s); [|done]. cbn.
    destruct (Utf8.encode t); [|done]. cbn. by rewrite app_assoc.
Qed.

(** ASCII text is its own UTF-8 encoding. *)

Lemma utf8_encode_ascii s : Forall is_ascii s → Utf8.encode s = Some s.
Proof.
  induction 1 as [|c s [H0 H1] _ IH]; [done|].
  cbn [Utf8.encode]. rewrite IH. unfold Utf8.encode_cp. by cmp_lia.
Qed.

Lemma utf8_decode_ascii s : Forall is_ascii s → Utf8.decode s = Some s.
Proof.
  intros H. apply utf8_decode_encode, utf8_encode_ascii, H.
Qed.

(** ** Base64 *)

Lemma list_ind3 {A} (P : list A → Prop) :
  P [] → (∀ a, P [a]) → (∀ a b, P [a; b]) →
  (∀ a b c t, P t → P (a :: b :: c :: t)) →
  ∀ l, P l.
Proof.
  intros H0 H1 H2 H3. fix IH 1. intros [|a [|b [|c t]]].
  - exact H0.
  - apply H1.
  - apply H2.
  - apply H3, IH.
Qed.

Lemma b64_char_range i : 0 <= i < 64 →
  (43 <= Base64.char i < 123) ∧ Base64.char i ≠ Base64.pad.
Proof.
  intros Hi. unfold Base64.char, Base64.pad.
  repeat case_match;
    repeat match goal with
    | H : (_ <? _) = _ |- _ => first [apply Z.ltb_lt in H | apply Z.ltb_ge in H]
    | H : (_ =? _) = _ |- _ => first [apply Z.eqb_eq in H | apply Z.eqb_neq in H]
    end; lia.
Qed.

Lemma b64_val_char i : 0 <= i < 64 → Base64.val (Base64.char i) = Some i.
Proof.
  intros Hi. unfold Base64.char.
  repeat case_match;
    repeat match goal with
    | H : (_ <? _) = _ |- _ => first [apply Z.ltb_lt in H | apply Z.ltb_ge in H]
    | H : (_ =? _) = _ |- _ => first [apply Z.eqb_eq in H | apply Z.eqb_neq in H]
    end; unfold Base64.val; cmp_lia; cbn [andb]; f_equal; lia.
Qed.

Lemma b64_char_ascii i : 0 <= i < 64 → is_ascii (Base64.char i).
Proof. intros Hi. pose proof (b64_char_range i Hi). unfold is_ascii. lia. Qed.

Lemma b64_encode_ascii bs :
  Forall is_byte bs → Forall is_ascii (Base64.encode bs).
Proof.
  unfold is_byte.
  induction bs as [|a|a b|a b c t IH] using list_ind3; intros H;
    repeat match goal with
    | H : Forall _ (_ :: _) |- _ => apply Forall_cons in H as [? H]
    end; cbn [Base64.encode];
    repeat first [ apply Forall_nil_2 | apply IH; assumption
                 | apply Forall_cons; split; [first [apply b64_char_ascii; lia | done]|] ].
Qed.

Lemma b64_decode_encode bs :
  Forall is_byte bs → Base64.decode (Base64.encode bs) = Some bs.
Proof.
  unfold is_byte.
  induction bs as [|a|a b|a b c t IH] using list_ind3; intros H;
    repeat match goal with
    | H : Forall _ (_ :: _) |- _ => apply Forall_cons in H as [? H]
    end; cbn [Base64.encode Base64.decode]; [done|..];
    rewrite ?b64_val_char by lia; cbn [mbind option_bind].
  - rewrite Z.eqb_refl. do 2 f_equal. lia.
  - rewrite Z.eqb_refl.
    destruct (b64_char_range ((b `mod` 16) * 4)) as [_ Hp]; [lia|].
    apply Z.eqb_neq in Hp. rewrite Hp. cbn.
    repeat f_equal; lia.
  - destruct (b64_char_range (c `mod` 64)) as [_ Hp]; [lia|].
    apply Z.eqb_neq in Hp. rewrite Hp, (IH H). cbn.
    repeat f_equal; lia.
Qed.

(** ** JSON: examples *)

Example json_dump_example :
  Json.iterencode
    (PyDict [(lit "accountNumber", PyStr (lit "A1"));
             (lit "intervals", PyList [PyInt 1; PyInt 2; PyInt 3])])
  = (lit "{" ++ quoted "accountNumber" ++ lit ": " ++ quoted "A1" ++ lit ", "
       ++ quoted "intervals" ++ lit ": [1, 2, 3]}", None).
Proof. vm_compute. reflexivity. Qed.

Example json_loads_example :
  Json.loads (lit " {" ++ quoted "accountNumber" ++ lit " :" ++ quoted "A1"
                ++ lit ", " ++ quoted "intervals" ++ lit ": [1, -20 ,3 ], "
                ++ quoted "x" ++ lit ": {" ++ quoted "\u00e9\ud83d\ude00\n"
                ++ lit ": null}} ")
  = Json.Parsed
      (PyDict [(lit "accountNumber", PyStr (lit "A1"));
               (lit "intervals", PyList [PyInt 1; PyInt (-20); PyInt 3]);
               (lit "x", PyDict [([233; 0x1F600; 10], PyNone)])]) [].
Proof. vm_compute. reflexivity. Qed.

Example json_loads_float :
  Json.loads (lit "[1.5]") = Json.NotModelled.
Proof. vm_compute. reflexivity. Qed.

Example json_loads_html :
  Json.loads (lit "<html></html>") = Json.Invalid.
Proof. vm_compute. reflexivity. Qed.

Example json_dump_object :
  Json.iterencode (PyDict [(lit "a", PyInt 1); (lit "b", PyObject); (lit "c", PyNone)])
  = (lit "{" ++ quoted "a" ++ lit ": 1, " ++ quoted "b" ++ lit ": ", Some TypeError).
Proof. vm_compute. reflexivity. Qed.

Example json_string_vector :
  Json.encode_basestring_ascii [97; 34; 92; 10; 233; 0x1F600; 127]
  = 34 :: lit "a\" ++ [34] ++ lit "\\\n\u00e9\ud83d\ude00\u007f" ++ [34].
Proof. vm_compute. reflexivity. Qed.

Example json_loads_missing_key :
  Json.loads (lit "{" ++ quoted "intervals" ++ lit ":[]}")
  = Json.Parsed (PyDict [(lit "intervals", PyList [])]) [].
Proof. vm_compute. reflexivity. Qed.

(** A lone high surrogate next to a lone low one does not survive: the
    decoder joins the two escapes into one character. *)
Example json_split_pair :
  Json.loads (dumps (PyStr [0xD83D; 0xDE00])) = Json.Parsed (PyStr [0x1F600]) [].
Proof. vm_compute. reflexivity. Qed.

(** ** JSON strings *)

Lemma hexval_hexdigit d : 0 <= d < 16 → Json.hexval (Json.hexdigit d) = Some d.
Proof.
  intros Hd. unfold Json.hexdigit.
  destruct (Z.ltb_spec d 10); unfold Json.hexval, Json.is_digit;
    cmp_lia; cbn [andb]; f_equal; lia.
Qed.

Lemma hex4_hexdigits n : 0 <= n < 65536 →
  Json.hex4 (Json.hexdigit (n / 4096)) (Json.hexdigit ((n / 256) mod 16))
            (Json.hexdigit ((n / 16) mod 16)) (Json.hexdigit (n mod 16))
  = Some n.
Proof.
  intros Hn. unfold Json.hex4.
  rewrite !hexval_hexdigit by lia. cbn [mbind option_bind]. f_equal. lia.
Qed.

Lemma scan_quote t : Json.scanstring (34 :: t) = Some ([], t).
Proof. reflexivity. Qed.

Lemma scan_plain c t :
  c ≠ 34 → c ≠ 92 → 32 <= c →
  Json.scanstring (c :: t) = Json.push c (Json.scanstring t).
Proof. intros. cbn [Json.scanstring]. by cmp_lia. Qed.

Lemma scan_short e x t :
  e ≠ 117 → Json.unescape e = Some x →
  Json.scanstring (92 :: e :: t) = Json.push x (Json.scanstring t).
Proof. intros ? H. cbn [Json.scanstring]. cmp_lia. by rewrite H. Qed.

Lemma scan_u h1 h2 h3 h4 uni t2 :
  Json.hex4 h1 h2 h3 h4 = Some uni →
  Json.scanstring (92 :: 117 :: h1 :: h2 :: h3 :: h4 :: t2)
  = if is_high_surrogate uni then
      match low_ahead t2 with
      | None => None
      | Some None => Json.push uni (Json.scanstring t2)
      | Some (Some (uni2, t5)) =>
          Json.push (Json.join_surrogates uni uni2) (Json.scanstring t5)
      end
    else Json.push uni (Json.scanstring t2).
Proof.
  intros H. cbn [Json.scanstring]. cmp_lia. rewrite H.
  destruct (is_high_surrogate uni); [|done].
  unfold low_ahead. repeat (case_match; try done).
Qed.

Lemma low_ahead_u_escape n t : 0 <= n < 65536 →
  low_ahead (Json.u_escape n ++ t)
  = if is_low_surrogate n then Some (Some (n, t)) else Some None.
Proof.
  intros Hn. unfold Json.u_escape. cbn [app low_ahead]. cmp_lia.
  by rewrite hex4_hexdigits.
Qed.

Lemma scan_u_escape n t : 0 <= n < 65536 →
  Json.scanstring (Json.u_escape n ++ t)
  = if is_high_surrogate n then
      match low_ahead t with
      | None => None
      | Some None => Json.push n (Json.scanstring t)
      | Some (Some (uni2, t5)) =>
          Json.push (Json.join_surrogates n uni2) (Json.scanstring t5)
      end
    else Json.push n (Json.scanstring t).
Proof.
  intros Hn. unfold Json.u_escape. cbn [app].
  apply scan_u, hex4_hexdigits, Hn.
Qed.

Ltac split_ifs :=
  repeat match goal with
  | |- context [if ?a =? ?b then _ else _] => destruct (Z.eqb_spec a b)
  | |- context [if ?a <? ?b then _ else _] => destruct (Z.ltb_spec a b)
  | |- context [if (?a <=? ?b) && (?c <=? ?d) then _ else _] =>
      destruct (Z.leb_spec a b); destruct (Z.leb_spec c d); cbn [andb]
  end.

Lemma high_surrogate_true c : is_high_surrogate c = true ↔ 0xD800 <= c <= 0xDBFF.
Proof. unfold is_high_surrogate. rewrite andb_true_iff, Z.leb_le, Z.leb_le. lia. Qed.

Lemma low_surrogate_true c : is_low_surrogate c = true ↔ 0xDC00 <= c <= 0xDFFF.
Proof. unfold is_low_surrogate. rewrite andb_true_iff, Z.leb_le, Z.leb_le. lia. Qed.

Lemma high_surrogate_false c : is_high_surrogate c = false ↔ (c < 0xD800 ∨ 0xDBFF < c).
Proof. unfold is_high_surrogate. rewrite andb_false_iff, Z.leb_gt, Z.leb_gt. lia. Qed.

Lemma low_surrogate_false c : is_low_surrogate c = false ↔ (c < 0xDC00 ∨ 0xDFFF < c).
Proof. unfold is_low_surrogate. rewrite andb_false_iff, Z.leb_gt, Z.leb_gt. lia. Qed.

Lemma scan_escape_char c t :
  is_codepoint c →
  (is_high_surrogate c = true → low_ahead t = Some None) →
  Json.scanstring (Json.escape_char c ++ t) = Json.push c (Json.scanstring t).
Proof.
  intros [H0 H1] Hhi. unfold Json.escape_char. split_ifs; subst;
    try (exfalso; lia);
    try (cbn [app]; apply scan_short; [lia | reflexivity]).
  all: try (cbn [app]; apply scan_plain; lia).
  all: try (rewrite scan_u_escape by lia;
            destruct (is_high_surrogate c) eqn:E; [by rewrite Hhi | done]).
  all: cbv zeta; rewrite <- app_assoc, scan_u_escape by lia;
       rewrite (proj2 (high_surrogate_true _)) by lia;
       rewrite low_ahead_u_escape by lia;
       rewrite (proj2 (low_surrogate_true _)) by lia;
       f_equal; unfold Json.join_surrogates; lia.
Qed.

Lemma low_ahead_escape_char c t :
  is_codepoint c → is_low_surrogate c = false →
  low_ahead (Json.escape_char c ++ t) = Some None.
Proof.
  intros [H0 H1] Hlo. unfold Json.escape_char. split_ifs; subst;
    try (exfalso; lia);
    try (cbn [app low_ahead]; by cmp_lia).
  all: try (rewrite low_ahead_u_escape by lia; by rewrite Hlo).
  all: cbv zeta; rewrite <- app_assoc, low_ahead_u_escape by lia;
       by rewrite (proj2 (low_surrogate_false _)) by lia.
Qed.

Lemma scan_escape s rest :
  json_str s →
  Json.scanstring (Json.escape s ++ 34 :: rest) = Some (s, rest).
Proof.
  induction s as [|c s IH]; [done|].
  intros (Hc & Hpair & Hs). cbn [Json.escape]. rewrite <- app_assoc.
  rewrite scan_escape_char, (IH Hs); [done..|].
  intros Hhi. specialize (Hpair Hhi). destruct s as [|c' s']; [done|].
  cbn [Json.escape]. rewrite <- app_assoc.
  apply low_ahead_escape_char; [apply Hs | done].
Qed.

Lemma scan_basestring s rest :
  json_str s →
  Json.scanstring (tail (Json.encode_basestring_ascii s) ++ rest) = Some (s, rest).
Proof.
  intros Hs. unfold Json.encode_basestring_ascii. cbn [tail].
  rewrite <- app_assoc. by apply scan_escape.
Qed.

(** ** JSON integers *)

Lemma nzhead_head d :
  Decimal.nzhead d = Decimal.Nil ∨ starts_nonzero (Decimal.nzhead d).
Proof. induction d; cbn; auto. Qed.

Lemma pos_to_uint_head p : starts_nonzero (Pos.to_uint p).
Proof.
  pose proof (DecimalPos.Unsigned.to_of (Pos.to_uint p)) as H.
  rewrite DecimalPos.Unsigned.of_to in H. cbn [N.to_uint] in H.
  rewrite H. unfold Decimal.unorm.
  destruct (nzhead_head (Pos.to_uint p)) as [E|E].
  - exfalso. apply (DecimalPos.Unsigned.to_uint_nonzero p).
    rewrite H. unfold Decimal.unorm. by rewrite E.
  - by destruct (Decimal.nzhead (Pos.to_uint p)).
Qed.

Lemma uint_of_digits_chars u : Json.uint_of_digits (Json.uint_chars u) = u.
Proof. induction u; cbn [Json.uint_chars Json.uint_of_digits]; [done|..]; by rewrite IHu. Qed.

Lemma span_digits_chars u rest :
  match rest with [] => True | c :: _ => Json.is_digit c = false end →
  Json.span_digits (Json.uint_chars u ++ rest) = (Json.uint_chars u, rest).
Proof.
  intros Hrest. induction u; cbn [Json.uint_chars app Json.span_digits];
    [|rewrite IHu; reflexivity..].
  destruct rest as [|c r]; [done|]. cbn [Json.span_digits]. by rewrite Hrest.
Qed.

Lemma match_integer_chars u rest :
  starts_nonzero u →
  match rest with [] => True | c :: _ => Json.is_digit c = false end →
  Json.match_integer (Json.uint_chars u ++ rest)
  = Some (false, Json.uint_chars u, rest).
Proof.
  intros Hu Hrest. destruct u; try done;
    cbn [Json.uint_chars app]; unfold Json.match_integer;
    cbn -[Json.span_digits Json.uint_chars app];
    (rewrite span_digits_chars by done); reflexivity.
Qed.

Lemma match_integer_neg_chars u rest :
  starts_nonzero u →
  match rest with [] => True | c :: _ => Json.is_digit c = false end →
  Json.match_integer (45 :: Json.uint_chars u ++ rest)
  = Some (true, Json.uint_chars u, rest).
Proof.
  intros Hu Hrest. destruct u; try done;
    cbn [Json.uint_chars app]; unfold Json.match_integer;
    cbn -[Json.span_digits Json.uint_chars app];
    (rewrite span_digits_chars by done); reflexivity.
Qed.

Lemma ends_number_digit rest :
  ends_number rest →
  match rest with [] => True | c :: _ => Json.is_digit c = false end.
Proof. destruct rest; [done|]. by intros [? _]. Qed.

Lemma match_integer_repr n rest :
  ends_number rest →
  ∃ neg ds,
    Json.match_integer (Json.int_repr n ++ rest) = Some (neg, ds, rest)
    ∧ Json.parse_int neg ds = n.
Proof.
  intros Hrest%ends_number_digit. unfold Json.int_repr, Json.parse_int.
  destruct n as [|p|p]; cbn [Z.to_int].
  - exists false, [48]. done.
  - exists false, (Json.uint_chars (Pos.to_uint p)). split.
    + apply match_integer_chars; [apply pos_to_uint_head | done].
    + rewrite uint_of_digits_chars.
      change (Decimal.Pos (Pos.to_uint p)) with (Z.to_int (Z.pos p)).
      apply DecimalZ.of_to.
  - exists true, (Json.uint_chars (Pos.to_uint p)). split.
    + apply match_integer_neg_chars; [apply pos_to_uint_head | done].
    + rewrite uint_of_digits_chars.
      change (Decimal.Neg (Pos.to_uint p)) with (Z.to_int (Z.neg p)).
      apply DecimalZ.of_to.
Qed.

Lemma match_frac_ends rest : ends_number rest → Json.match_frac rest = None.
Proof.
  destruct rest as [|c r]; [done|]. intros (_ & H & _).
  unfold Json.match_frac. by cmp_lia.
Qed.

Lemma match_exp_ends rest : ends_number rest → Json.match_exp rest = None.
Proof.
  destruct rest as [|c r]; [done|]. intros (_ & _ & H1 & H2).
  unfold Json.match_exp. by cmp_lia.
Qed.

Lemma scan_number_repr n rest :
  ends_number rest →
  Json.scan_number (Json.int_repr n ++ rest) = Json.Parsed (PyInt n) rest.
Proof.
  intros Hrest. destruct (match_integer_repr n rest Hrest) as (neg & ds & H & Hn).
  unfold Json.scan_number.
  by rewrite H, match_frac_ends, match_exp_ends, Hn.
Qed.

(** An integer's text starts with a digit or a minus sign. *)
Lemma int_repr_head n :
  ∃ c t, Json.int_repr n = c :: t ∧ (Json.is_digit c = true ∨ c = 45).
Proof.
  unfold Json.int_repr. destruct n as [|p|p]; cbn [Z.to_int].
  - exists 48, []. auto.
  - pose proof (pos_to_uint_head p) as H.
    destruct (Pos.to_uint p); try done; cbn [Json.uint_chars]; eauto.
  - eauto.
Qed.

(** ** The encoder on JSON values *)

Lemma pyobj_ind' (P : pyobj → Prop) :
  P PyNone → (∀ b, P (PyBool b)) → (∀ n, P (PyInt n)) → (∀ s, P (PyStr s)) →
  (∀ xs, Forall P xs → P (PyList xs)) →
  (∀ items, Forall (λ kv, P kv.2) items → P (PyDict items)) →
  P PyObject →
  ∀ o, P o.
Proof.
  intros HN HB HI HS HL HD HO. fix IH 1. intros [ |b|n|s|xs|items| ].
  - exact HN.
  - apply HB.
  - apply HI.
  - apply HS.
  - apply HL.
    refine ((fix go (xs : list pyobj) : Forall P xs :=
               match xs with
               | [] => Forall_nil_2 P
               | x :: xs' => Forall_cons_2 P x xs' (IH x) (go xs')
               end) xs).
  - apply HD.
    refine ((fix go (items : list (str * pyobj)) : Forall (λ kv, P kv.2) items :=
               match items with
               | [] => Forall_nil_2 _
               | kv :: items' => Forall_cons_2 _ kv items' (IH kv.2) (go items')
               end) items).
  - exact HO.
Qed.

Lemma iterencode_PyList xs :
  Json.iterencode (PyList xs)
  = match xs with
    | [] => Json.emit (lit "[]")
    | _ => Json.and_then (Json.emit (lit "[")) (Json.iterencode_list true xs)
    end.
Proof. by destruct xs. Qed.

Lemma iterencode_PyDict items :
  Json.iterencode (PyDict items)
  = match items with
    | [] => Json.emit (lit "{}")
    | _ => Json.and_then (Json.emit (lit "{")) (Json.iterencode_dict true items)
    end.
Proof. by destruct items. Qed.

Lemma json_value_PyList xs : json_value (PyList xs) = json_values xs.
Proof. reflexivity. Qed.

Lemma json_value_PyDict items :
  json_value (PyDict items) = (NoDup items.*1 ∧ json_items items).
Proof. reflexivity. Qed.

Lemma weight_PyList xs : weight (PyList xs) = S (weights xs).
Proof. reflexivity. Qed.

Lemma weight_PyDict items : weight (PyDict items) = S (weight_items items).
Proof. reflexivity. Qed.

Lemma emit_and_then s b : Json.and_then (Json.emit s) b = (s ++ b.1, b.2).
Proof. reflexivity. Qed.

Lemma and_then_ok a b :
  a.2 = None → Json.and_then a b = (a.1 ++ b.1, b.2).
Proof. unfold Json.and_then. by intros ->. Qed.

Lemma iterencode_list_cons first x xs :
  (Json.iterencode x).2 = None →
  Json.iterencode_list first (x :: xs)
  = ((if first then [] else Json.item_separator)
       ++ (Json.iterencode x).1 ++ (Json.iterencode_list false xs).1,
     (Json.iterencode_list false xs).2).
Proof.
  intros H. cbn [Json.iterencode_list].
  rewrite emit_and_then, and_then_ok by done.
  cbn [fst snd]. by rewrite <- app_assoc.
Qed.

Lemma iterencode_dict_cons first k v items :
  (Json.iterencode v).2 = None →
  Json.iterencode_dict first ((k, v) :: items)
  = ((if first then [] else Json.item_separator)
       ++ Json.encode_basestring_ascii k ++ Json.key_separator
       ++ (Json.iterencode v).1 ++ (Json.iterencode_dict false items).1,
     (Json.iterencode_dict false items).2).
Proof.
  intros H. cbn [Json.iterencode_dict].
  unfold Json.and_then, Json.emit. cbn [fst snd]. rewrite H. cbn [fst snd].
  by rewrite <- !app_assoc.
Qed.

Lemma iterencode_list_ok first xs :
  Forall (λ x, (Json.iterencode x).2 = None) xs →
  (Json.iterencode_list first xs).2 = None.
Proof.
  intros H. revert first. induction H as [|x xs Hx _ IH]; intros first; [done|].
  rewrite iterencode_list_cons by done. apply IH.
Qed.

Lemma iterencode_dict_ok first items :
  Forall (λ kv, (Json.iterencode kv.2).2 = None) items →
  (Json.iterencode_dict first items).2 = None.
Proof.
  intros H. revert first.
  induction H as [|[k v] items Hv _ IH]; intros first; [done|].
  rewrite iterencode_dict_cons by done. apply IH.
Qed.

Lemma json_values_Forall xs : json_values xs ↔ Forall json_value xs.
Proof.
  induction xs as [|x xs IH]; cbn [json_values].
  - split; [constructor|done].
  - rewrite Forall_cons, IH. done.
Qed.

Lemma json_items_Forall items :
  json_items items ↔ Forall (λ kv, json_str kv.1 ∧ json_value kv.2) items.
Proof.
  induction items as [|[k v] items IH]; cbn [json_items].
  - split; [constructor|done].
  - rewrite Forall_cons, IH. cbn. tauto.
Qed.

(** A JSON value is written without an exception. *)
Lemma iterencode_ok o : json_value o → (Json.iterencode o).2 = None.
Proof.
  induction o as [ |b|n|s|xs IH|items IH| ] using pyobj_ind'; try done.
  - by destruct b.
  - rewrite json_value_PyList, json_values_Forall, iterencode_PyList.
    intros H. destruct xs; [done|]. rewrite emit_and_then. cbn [snd].
    apply iterencode_list_ok.
    eapply Forall_impl; [apply Forall_and; split; [exact IH | exact H]|].
    cbn. intros x [Hx1 Hx2]. auto.
  - rewrite json_value_PyDict, json_items_Forall, iterencode_PyDict.
    intros [_ H]. destruct items; [done|]. rewrite emit_and_then. cbn [snd].
    apply iterencode_dict_ok.
    eapply Forall_impl; [apply Forall_and; split; [exact IH | exact H]|].
    cbn. intros x [Hx1 [_ Hx2]]. auto.
Qed.

(** ** The decoder, one step at a time *)

Ltac eval_lits :=
  repeat match goal with
  | |- context [lit ?s] =>
      let v := eval vm_compute in (lit s) in change (lit s) with v
  end.

Lemma elements_eq f s :
  Json.elements (S f) s
  = match Json.scan_once f s with
    | Json.Parsed v r =>
        match Json.skip_ws r with
        | c :: r1 =>
            if c =? 93 then Json.Parsed [v] r1
            else if c =? 44 then
              match Json.elements f (Json.skip_ws r1) with
              | Json.Parsed vs r2 => Json.Parsed (v :: vs) r2
              | other => other
              end
            else Json.Invalid
        | [] => Json.Invalid
        end
    | Json.Invalid => Json.Invalid
    | Json.NotModelled => Json.NotModelled
    | Json.OutOfFuel => Json.OutOfFuel
    end.
Proof. reflexivity. Qed.

Lemma members_eq f s :
  Json.members (S f) s
  = match Json.scanstring s with
    | None => Json.Invalid
    | Some (k, r) =>
        match Json.skip_ws r with
        | c :: r1 =>
            if c =? 58 then
              match Json.scan_once f (Json.skip_ws r1) with
              | Json.Parsed v r2 =>
                  match Json.skip_ws r2 with
                  | c2 :: r3 =>
                      if c2 =? 125 then Json.Parsed [(k, v)] r3
                      else if c2 =? 44 then
                        match Json.skip_ws r3 with
                        | q :: r4 =>
                            if q =? 34 then
                              match Json.members f r4 with
                              | Json.Parsed kvs r5 => Json.Parsed ((k, v) :: kvs) r5
                              | other => other
                              end
                            else Json.Invalid
                        | [] => Json.Invalid
                        end
                      else Json.Invalid
                  | [] => Json.Invalid
                  end
              | Json.Invalid => Json.Invalid
              | Json.NotModelled => Json.NotModelled
              | Json.OutOfFuel => Json.OutOfFuel
              end
            else Json.Invalid
        | [] => Json.Invalid
        end
    end.
Proof. reflexivity. Qed.

Lemma scan_once_string f t :
  Json.scan_once (S f) (34 :: t)
  = match Json.scanstring t with
    | Some (x, r) => Json.Parsed (PyStr x) r
    | None => Json.Invalid
    end.
Proof. reflexivity. Qed.

Lemma scan_once_array f t :
  Json.scan_once (S f) (91 :: t)
  = match Json.skip_ws t with
    | c1 :: r =>
        if c1 =? 93 then Json.Parsed (PyList []) r
        else
          match Json.elements f (c1 :: r) with
          | Json.Parsed xs r' => Json.Parsed (PyList xs) r'
          | Json.Invalid => Json.Invalid
          | Json.NotModelled => Json.NotModelled
          | Json.OutOfFuel => Json.OutOfFuel
          end
    | [] => Json.Invalid
    end.
Proof. reflexivity. Qed.

Lemma scan_once_object f t :
  Json.scan_once (S f) (123 :: t)
  = match Json.skip_ws t with
    | c1 :: r =>
        if c1 =? 125 then Json.Parsed (PyDict []) r
        else if c1 =? 34 then
          match Json.members f r with
          | Json.Parsed pairs r' => Json.Parsed (PyDict (dict_of_pairs pairs)) r'
          | Json.Invalid => Json.Invalid
          | Json.NotModelled => Json.NotModelled
          | Json.OutOfFuel => Json.OutOfFuel
          end
        else Json.Invalid
    | [] => Json.Invalid
    end.
Proof. reflexivity. Qed.

Lemma scan_once_array_nonempty f s rest :
  Json.skip_ws (s ++ rest) = s ++ rest →
  (∃ c t, s ++ rest = c :: t ∧ c ≠ 93) →
  Json.scan_once (S f) (91 :: s ++ rest)
  = match Json.elements f (s ++ rest) with
    | Json.Parsed xs r' => Json.Parsed (PyList xs) r'
    | Json.Invalid => Json.Invalid
    | Json.NotModelled => Json.NotModelled
    | Json.OutOfFuel => Json.OutOfFuel
    end.
Proof.
  intros Hws (c & t & E & Hc). rewrite scan_once_array, Hws, E.
  by rewrite (proj2 (Z.eqb_neq c 93)).
Qed.

Lemma starts_with_head p0 p c t :
  c ≠ p0 → Json.starts_with (p0 :: p) (c :: t) = false.
Proof.
  intros Hc. unfold Json.starts_with. apply bool_decide_eq_false_2.
  cbn [length take]. intros [= ? _]. done.
Qed.

Lemma scan_once_number f c t :
  Json.is_digit c = true ∨ c = 45 →
  Json.scan_once (S f) (c :: t) = Json.scan_number (c :: t).
Proof.
  intros Hc.
  assert (c = 45 ∨ 48 <= c <= 57) as Hr.
  { destruct Hc as [Hc| ->]; [|auto]. unfold Json.is_digit in Hc.
    apply andb_true_iff in Hc as [?%Z.leb_le ?%Z.leb_le]. auto. }
  cbn [Json.scan_once]. cmp_lia. eval_lits.
  rewrite !starts_with_head by lia. done.
Qed.

Lemma skip_ws_head c t : Json.is_ws c = false → Json.skip_ws (c :: t) = c :: t.
Proof. intros H. cbn [Json.skip_ws]. by rewrite H. Qed.

Lemma skip_ws_space t : Json.skip_ws (32 :: t) = Json.skip_ws t.
Proof. reflexivity. Qed.

(** The first character of a value's text is no white space and closes
    nothing. *)
Lemma dumps_head o :
  json_value o →
  ∃ c t, dumps o = c :: t ∧ Json.is_ws c = false ∧ c ≠ 93 ∧ c ≠ 125.
Proof.
  unfold dumps. destruct o as [ |b|n|s|xs|items| ]; intros H; try done.
  - by exists 110, (lit "ull").
  - destruct b; [by exists 116, (lit "rue") | by exists 102, (lit "alse")].
  - destruct (int_repr_head n) as (c & t & E & Hc). exists c, t.
    cbn [Json.iterencode Json.emit fst]. split; [done|].
    assert (c = 45 ∨ 48 <= c <= 57) as Hr.
    { destruct Hc as [Hc| ->]; [|auto]. unfold Json.is_digit in Hc.
      apply andb_true_iff in Hc as [?%Z.leb_le ?%Z.leb_le]. auto. }
    unfold Json.is_ws. cmp_lia. split; [done|lia].
  - eexists 34, _. done.
  - rewrite iterencode_PyList. destruct xs.
    + by exists 91, [93].
    + rewrite emit_and_then. by eexists 91, _.
  - rewrite iterencode_PyDict. destruct items.
    + by exists 123, [125].
    + rewrite emit_and_then. by eexists 123, _.
Qed.

Lemma skip_ws_dumps o rest :
  json_value o →
  Json.skip_ws ((Json.iterencode o).1 ++ rest) = (Json.iterencode o).1 ++ rest.
Proof.
  intros (c & t & E & Hc & _)%dumps_head. unfold dumps in E. rewrite E.
  by apply skip_ws_head.
Qed.

(** ** Decoding what the encoder wrote *)

Lemma ends_number_closer c rest :
  c = 44 ∨ c = 93 ∨ c = 125 → ends_number (c :: rest).
Proof.
  intros Hc. unfold ends_number, Json.is_digit.
  destruct Hc as [-> | [-> | ->]]; repeat split; done.
Qed.

Lemma elements_dumps xs :
  Forall roundtrips xs → json_values xs →
  ∀ x fuel rest,
    roundtrips x → json_value x → (weights (x :: xs) ≤ fuel)%nat →
    Json.elements fuel (dumps x ++ (Json.iterencode_list false xs).1 ++ rest)
    = Json.Parsed (x :: xs) rest.
Proof.
  unfold roundtrips, dumps.
  induction 1 as [|y ys Hy _ IH]; intros Hjs x fuel rest Hx Hjx Hfuel;
    cbn [weights] in Hfuel; (destruct fuel as [|f]; [lia|]);
    rewrite elements_eq.
  - cbn [Json.iterencode_list Json.emit fst]. eval_lits. cbn [app].
    rewrite Hx by (auto using ends_number_closer; lia). done.
  - destruct Hjs as [Hjy Hjs].
    rewrite iterencode_list_cons by (by apply iterencode_ok).
    unfold Json.item_separator. eval_lits. cbn [fst app].
    rewrite <- !app_assoc.
    rewrite Hx by (auto using ends_number_closer; lia).
    rewrite skip_ws_head by done.
    change (44 =? 93) with false. change (44 =? 44) with true. cbv iota.
    rewrite skip_ws_space, skip_ws_dumps by done.
    rewrite IH; [done..|]. cbn [weights]. lia.
Qed.

Lemma members_dumps items :
  Forall (λ kv, roundtrips kv.2) items → json_items items →
  ∀ k v fuel rest,
    roundtrips v → json_str k → json_value v →
    (weight_items ((k, v) :: items) ≤ fuel)%nat →
    Json.members fuel
      (tail (Json.encode_basestring_ascii k) ++ Json.key_separator ++ dumps v
         ++ (Json.iterencode_dict false items).1 ++ rest)
    = Json.Parsed ((k, v) :: items) rest.
Proof.
  unfold roundtrips, dumps.
  induction 1 as [|[k' v'] items Hv' _ IH];
    intros Hjs k v fuel rest Hv Hk Hjv Hfuel;
    cbn [weight_items] in Hfuel; (destruct fuel as [|f]; [lia|]);
    rewrite members_eq, scan_basestring by done;
    unfold Json.key_separator; eval_lits; cbn [app];
    rewrite skip_ws_head by done;
    change (58 =? 58) with true; cbv iota;
    rewrite skip_ws_space, skip_ws_dumps by done.
  - cbn [Json.iterencode_dict Json.emit fst]. eval_lits. cbn [app].
    rewrite Hv by (auto using ends_number_closer; lia). done.
  - destruct Hjs as (Hk' & Hjv' & Hjs).
    rewrite iterencode_dict_cons by (by apply iterencode_ok).
    unfold Json.item_separator, Json.key_separator. eval_lits. cbn [fst app].
    rewrite Hv by (auto using ends_number_closer; lia).
    rewrite skip_ws_head by done.
    change (44 =? 125) with false. change (44 =? 44) with true. cbv iota.
    rewrite skip_ws_space.
    unfold Json.encode_basestring_ascii at 1. cbn [app].
    rewrite skip_ws_head by done.
    change (34 =? 34) with true. cbv iota.
    specialize (IH Hjs k' v' f rest Hv' Hk' Hjv').
    unfold Json.key_separator, Json.encode_basestring_ascii in IH.
    cbn [tail] in IH. change (lit ": ") with [58; 32] in IH.
    repeat (progress (rewrite <- ?app_assoc in IH; cbn [app] in IH)).
    repeat (progress (rewrite <- ?app_assoc; cbn [app])).
    rewrite IH; [done|].
    cbn [weight_items]. lia.
Qed.

(** ** [dict(pairs)] on distinct keys *)

Lemma dict_set_fresh k v items :
  k ∉ items.*1 → dict_set k v items = items ++ [(k, v)].
Proof.
  induction items as [|[k' v'] items IH]; cbn [dict_set fmap list_fmap app fst];
    [done|].
  intros [Hne Hk]%not_elem_of_cons. rewrite decide_False by done.
  by rewrite IH.
Qed.

Lemma dict_of_pairs_app acc items :
  NoDup (acc.*1 ++ items.*1) →
  foldl (λ d kv, dict_set kv.1 kv.2 d) acc items = acc ++ items.
Proof.
  revert acc. induction items as [|[k v] items IH]; intros acc Hnd;
    cbn [foldl].
  - by rewrite app_nil_r.
  - cbn [fmap list_fmap fst] in Hnd. rewrite dict_set_fresh.
    + rewrite IH; [by rewrite <- app_assoc|].
      rewrite fmap_app. cbn [fmap list_fmap fst]. by rewrite <- app_assoc.
    + apply NoDup_app in Hnd as (_ & Hnd & _). intros Hk.
      apply (Hnd k Hk). cbn. left.
Qed.

Lemma dict_of_pairs_NoDup items :
  NoDup items.*1 → dict_of_pairs items = items.
Proof. intros H. unfold dict_of_pairs. by rewrite dict_of_pairs_app. Qed.

(** ** The round trip *)

Lemma json_roundtrips o : json_value o → roundtrips o.
Proof.
  induction o as [ |b|n|s|xs IH|items IH| ] using pyobj_ind';
    intros Hj fuel rest Hfuel Hrest;
    (destruct fuel as [|f]; [cbn in Hfuel; lia|]); unfold dumps.
  - reflexivity.
  - destruct b; reflexivity.
  - cbn [Json.iterencode Json.emit fst].
    destruct (int_repr_head n) as (c & t & E & Hc).
    assert (Json.int_repr n ++ rest = c :: (t ++ rest)) as E' by by rewrite E.
    rewrite E', scan_once_number by done. rewrite <- E'.
    by apply scan_number_repr.
  - cbn [Json.iterencode Json.emit fst].
    unfold Json.encode_basestring_ascii. cbn [app].
    rewrite scan_once_string, <- app_assoc. cbn [app].
    by rewrite scan_escape.
  - rewrite iterencode_PyList. rewrite json_value_PyList in Hj.
    rewrite weight_PyList in Hfuel.
    destruct xs as [|x xs]; [reflexivity|].
    destruct Hj as [Hjx Hjs]. apply Forall_cons in IH as [IHx IHxs].
    assert (Forall roundtrips xs) as IHxs'.
    { pose proof (proj1 (json_values_Forall xs) Hjs) as Hjs'.
      eapply Forall_impl; [apply Forall_and; split; [exact IHxs | exact Hjs']|].
      cbn. intros ? [? ?]. auto. }
    clear IHxs. rename IHxs' into IHxs.
    rewrite emit_and_then. cbn [fst].
    rewrite iterencode_list_cons by (by apply iterencode_ok).
    eval_lits. cbn [fst app]. rewrite <- !app_assoc.
    rewrite scan_once_array_nonempty.
    + pose proof (elements_dumps xs IHxs Hjs x f rest (IHx Hjx) Hjx) as H.
      unfold dumps in H. rewrite H; [done|]. lia.
    + by apply skip_ws_dumps.
    + destruct (dumps_head x Hjx) as (c & t & E & _ & Hc & _).
      unfold dumps in E. rewrite E. by eexists c, _.
  - rewrite iterencode_PyDict. rewrite json_value_PyDict in Hj.
    rewrite weight_PyDict in Hfuel. destruct Hj as [Hnd Hj].
    destruct items as [|[k v] items]; [reflexivity|].
    destruct Hj as (Hk & Hjv & Hjs). apply Forall_cons in IH as [IHv IHitems].
    assert (Forall (λ kv, roundtrips kv.2) items) as IHitems'.
    { pose proof (proj1 (json_items_Forall items) Hjs) as Hjs'.
      eapply Forall_impl; [apply Forall_and; split; [exact IHitems | exact Hjs']|].
      cbn. intros ? [? [? ?]]. auto. }
    clear IHitems. rename IHitems' into IHitems.
    rewrite emit_and_then. cbn [fst].
    rewrite iterencode_dict_cons by (by apply iterencode_ok).
    eval_lits. cbn [fst app]. rewrite <- !app_assoc.
    rewrite scan_once_object.
    unfold Json.encode_basestring_ascii at 1. cbn [app].
    rewrite skip_ws_head by done.
    change (34 =? 125) with false. change (34 =? 34) with true. cbv iota.
    pose proof (members_dumps items IHitems Hjs k v f rest (IHv Hjv) Hk Hjv) as H.
    unfold Json.encode_basestring_ascii, dumps in H. cbn [tail] in H.
    repeat (progress (rewrite <- ?app_assoc in H; cbn [app] in H)).
    repeat (progress (rewrite <- ?app_assoc; cbn [app])).
    rewrite H by lia. by rewrite dict_of_pairs_NoDup.
  - done.
Qed.

(** ** Fuel: the text is at least as long as the object is heavy *)

Lemma weights_le_length xs :
  Forall (λ x, json_value x → (weight x ≤ length (dumps x))%nat) xs →
  json_values xs →
  (weights xs + 1 ≤ length (Json.iterencode_list false xs).1)%nat.
Proof.
  induction 1 as [|x xs Hx _ IH]; intros Hj.
  - cbn. lia.
  - destruct Hj as [Hjx Hjs].
    rewrite iterencode_list_cons by (by apply iterencode_ok).
    cbn [fst weights]. rewrite !length_app.
    specialize (Hx Hjx). specialize (IH Hjs). unfold dumps in Hx.
    change (length Json.item_separator) with 2%nat. lia.
Qed.

Lemma weight_items_le_length items :
  Forall (λ kv, json_value kv.2 → (weight kv.2 ≤ length (dumps kv.2))%nat) items →
  json_items items →
  (weight_items items + 1 ≤ length (Json.iterencode_dict false items).1)%nat.
Proof.
  induction 1 as [|[k v] items Hv _ IH]; intros Hj.
  - cbn. lia.
  - destruct Hj as (_ & Hjv & Hjs).
    rewrite iterencode_dict_cons by (by apply iterencode_ok).
    cbn [fst weight_items]. rewrite !length_app.
    specialize (Hv Hjv). specialize (IH Hjs). unfold dumps in Hv. cbn [snd] in Hv.
    change (length Json.item_separator) with 2%nat. lia.
Qed.

Lemma weight_le_length o :
  json_value o → (weight o ≤ length (dumps o))%nat.
Proof.
  induction o as [ |b|n|s|xs IH|items IH| ] using pyobj_ind'; intros Hj;
    try (destruct (dumps_head _ Hj) as (c & t & -> & _); cbn; lia).
  - unfold dumps. rewrite iterencode_PyList, weight_PyList.
    rewrite json_value_PyList in Hj.
    destruct xs as [|x xs]; [cbn; lia|].
    destruct Hj as [Hjx Hjs]. apply Forall_cons in IH as [IHx IHxs].
    rewrite emit_and_then. cbn [fst].
    rewrite iterencode_list_cons by (by apply iterencode_ok).
    cbn [fst weights]. rewrite !length_app.
    pose proof (weights_le_length xs IHxs Hjs). specialize (IHx Hjx).
    unfold dumps in *. eval_lits. cbn [length app]. lia.
  - unfold dumps. rewrite iterencode_PyDict, weight_PyDict.
    rewrite json_value_PyDict in Hj. destruct Hj as [_ Hj].
    destruct items as [|[k v] items]; [cbn; lia|].
    destruct Hj as (_ & Hjv & Hjs). apply Forall_cons in IH as [IHv IHitems].
    rewrite emit_and_then. cbn [fst].
    rewrite iterencode_dict_cons by (by apply iterencode_ok).
    cbn [fst weight_items]. rewrite !length_app.
    pose proof (weight_items_le_length items IHitems Hjs). specialize (IHv Hjv).
    unfold dumps in *. cbn [snd] in IHv. eval_lits. cbn [length app].
    unfold Json.encode_basestring_ascii, Json.key_separator. eval_lits.
    cbn [length app]. lia.
Qed.

(** [json.loads] reads back what [json.dump] wrote. *)
Lemma loads_dumps o : json_value o → Json.loads (dumps o) = Json.Parsed o [].
Proof.
  intros Hj. unfold Json.loads.
  pose proof (skip_ws_dumps o [] Hj) as Hws. rewrite app_nil_r in Hws.
  unfold dumps. rewrite Hws.
  pose proof (json_roundtrips o Hj (S (length (dumps o))) []) as H.
  unfold dumps in H. rewrite app_nil_r in H. rewrite H; [done| |done].
  pose proof (weight_le_length o Hj). unfold dumps in *. lia.
Qed.

(** ** Deciding [json_value] *)

Lemma json_strb_sound s : json_strb s = true → json_str s.
Proof.
  induction s as [|c s IH]; [done|]. cbn [json_strb json_str].
  intros [[[H0 H1]%andb_true_iff Hp]%andb_true_iff Hs]%andb_true_iff.
  apply Z.leb_le in H0. apply Z.ltb_lt in H1.
  split; [done|]. split; [|by apply IH].
  intros Hhi. rewrite Hhi in Hp. cbn [negb orb] in Hp.
  destruct s; [done|]. by apply negb_true_iff.
Qed.

Lemma json_valueb_sound o : json_valueb o = true → json_value o.
Proof.
  induction o as [ |b|n|s|xs IH|items IH| ] using pyobj_ind'; try done.
  - apply json_strb_sound.
  - cbn [json_valueb json_value].
    induction IH as [|x xs Hx _ IHxs]; [done|].
    intros [H1 H2]%andb_true_iff. split; [by apply Hx | by apply IHxs].
  - cbn [json_valueb json_value]. intros [Hnd H]%andb_true_iff.
    apply bool_decide_eq_true in Hnd. split; [done|]. clear Hnd.
    induction IH as [|[k v] items Hv _ IHitems]; [done|].
    apply andb_true_iff in H as [[H1 H2]%andb_true_iff H3].
    split; [by apply json_strb_sound|]. split; [by apply Hv | by apply IHitems].
Qed.

Example example_body_json : json_value example_body.
Proof. apply json_valueb_sound. vm_compute. reflexivity. Qed.

(** ** The text is printable ASCII

    [open(path, "w")] opens a text file in the platform's encoding, with
    the platform's line ends.  Neither matters for what [json.dump] writes:
    every character of it is printable ASCII. *)

Lemma hexdigit_printable d : 0 <= d < 16 → printable (Json.hexdigit d).
Proof.
  intros Hd. unfold Json.hexdigit, printable.
  destruct (Z.ltb_spec d 10); lia.
Qed.

Lemma u_escape_printable n : 0 <= n < 65536 → Forall printable (Json.u_escape n).
Proof.
  intros Hn. unfold Json.u_escape.
  repeat (apply Forall_cons; split; [first [apply hexdigit_printable; lia | by unfold printable]|]).
  constructor.
Qed.

Lemma escape_char_printable c :
  is_codepoint c → Forall printable (Json.escape_char c).
Proof.
  intros [H0 H1]. unfold Json.escape_char. split_ifs; subst;
    try (exfalso; lia);
    try (repeat (apply Forall_cons; split; [unfold printable; lia|]); by constructor).
  all: try (apply u_escape_printable; lia).
  all: cbv zeta; apply Forall_app; split; apply u_escape_printable; lia.
Qed.

Lemma json_str_codepoints s : json_str s → Forall is_codepoint s.
Proof.
  induction s as [|c s IH]; [constructor|]. intros (Hc & _ & Hs).
  constructor; auto.
Qed.

Lemma encode_basestring_printable s :
  json_str s → Forall printable (Json.encode_basestring_ascii s).
Proof.
  intros Hs%json_str_codepoints. unfold Json.encode_basestring_ascii.
  apply Forall_cons. split; [by unfold printable|].
  apply Forall_app. split; [|by repeat constructor].
  induction Hs as [|c s Hc _ IH]; [constructor|]. cbn [Json.escape].
  apply Forall_app. split; [by apply escape_char_printable | done].
Qed.

Lemma uint_chars_printable u : Forall printable (Json.uint_chars u).
Proof.
  induction u; cbn [Json.uint_chars]; [constructor|..];
    (apply Forall_cons; split; [by unfold printable | done]).
Qed.

Lemma int_repr_printable n : Forall printable (Json.int_repr n).
Proof.
  unfold Json.int_repr. destruct (Z.to_int n).
  - apply uint_chars_printable.
  - apply Forall_cons. split; [by unfold printable | apply uint_chars_printable].
Qed.

Lemma lit_printable_by_computation s :
  forallb (λ c, (32 <=? c) && (c <=? 126)) (lit s) = true →
  Forall printable (lit s).
Proof.
  intros H. apply Forall_forall. intros c Hc.
  rewrite forallb_forall in H. specialize (H c (proj1 (list_elem_of_In _ _) Hc)).
  apply andb_true_iff in H as [?%Z.leb_le ?%Z.leb_le]. by unfold printable.
Qed.

Lemma iterencode_list_printable first xs :
  Forall (λ x, Forall printable (Json.iterencode x).1) xs →
  Forall (λ x, (Json.iterencode x).2 = None) xs →
  Forall printable (Json.iterencode_list first xs).1.
Proof.
  intros H. revert first. induction H as [|x xs Hx _ IH]; intros first Hok.
  - by apply lit_printable_by_computation.
  - apply Forall_cons in Hok as [Hokx Hok].
    rewrite iterencode_list_cons by done. cbn [fst].
    repeat (apply Forall_app; split); [|done|by apply IH].
    destruct first; [constructor | by apply lit_printable_by_computation].
Qed.

Lemma iterencode_dict_printable first items :
  Forall (λ kv, json_str kv.1 ∧ Forall printable (Json.iterencode kv.2).1) items →
  Forall (λ kv, (Json.iterencode kv.2).2 = None) items →
  Forall printable (Json.iterencode_dict first items).1.
Proof.
  intros H. revert first.
  induction H as [|[k v] items [Hk Hv] _ IH]; intros first Hok.
  - by apply lit_printable_by_computation.
  - apply Forall_cons in Hok as [Hokv Hok].
    rewrite iterencode_dict_cons by done. cbn [fst].
    repeat (apply Forall_app; split);
      [|by apply encode_basestring_printable
       |by apply lit_printable_by_computation|done|by apply IH].
    destruct first; [constructor | by apply lit_printable_by_computation].
Qed.

Lemma dumps_printable o : json_value o → Forall printable (dumps o).
Proof.
  unfold dumps.
  induction o as [ |b|n|s|xs IH|items IH| ] using pyobj_ind'; intros Hj; try done.
  - by apply lit_printable_by_computation.
  - destruct b; by apply lit_printable_by_computation.
  - apply int_repr_printable.
  - by apply encode_basestring_printable.
  - rewrite iterencode_PyList. rewrite json_value_PyList, json_values_Forall in Hj.
    destruct xs as [|x xs]; [by apply lit_printable_by_computation|].
    rewrite emit_and_then. cbn [fst].
    apply Forall_app. split; [by apply lit_printable_by_computation|].
    apply iterencode_list_printable.
    + eapply Forall_impl; [apply Forall_and; split; [exact IH | exact Hj]|].
      cbn. intros ? [? ?]. auto.
    + eapply Forall_impl; [exact Hj|]. apply iterencode_ok.
  - rewrite iterencode_PyDict. rewrite json_value_PyDict, json_items_Forall in Hj.
    destruct Hj as [_ Hj].
    destruct items as [|kv items]; [by apply lit_printable_by_computation|].
    rewrite emit_and_then. cbn [fst].
    apply Forall_app. split; [by apply lit_printable_by_computation|].
    apply iterencode_dict_printable.
    + eapply Forall_impl; [apply Forall_and; split; [exact IH | exact Hj]|].
      cbn. intros ? [? [? ?]]. auto.
    + eapply Forall_impl; [exact Hj|]. cbn. intros ? [_ ?]. by apply iterencode_ok.
Qed.

(** ** The output file's name *)

Example dat4_literal : py_literal "..\dat4.json" = Some dat4.
Proof. vm_compute. reflexivity. Qed.

Example dat4_chars : dat4 = [46; 46; 92; 100; 97; 116; 52; 46; 106; 115; 111; 110].
Proof. vm_compute. reflexivity. Qed.

Example py_literal_newline : py_literal "..\new.json" = Some ([46; 46; 10] ++ lit "ew.json").
Proof. vm_compute. reflexivity. Qed.

Example py_literal_octal_hex : py_literal "a\101\x42C\\" = Some (lit "aABC\").
Proof. vm_compute. reflexivity. Qed.

Example dat4_windows : components Windows dat4 = [lit ".."; lit "dat4.json"].
Proof. vm_compute. reflexivity. Qed.

Example dat4_posix : components Posix dat4 = [lit "..\dat4.json"].
Proof. vm_compute. reflexivity. Qed.

(** ** The persist step *)

Lemma remove_first_head f l : remove_first f (f :: l) = l.
Proof. cbn. by rewrite decide_True. Qed.

(** What [persist] does, case by case. *)
Lemma persist_run o env w :
  persist o env w
  = if can_open env (outfile env) then
      let text := (Json.iterencode o).1 in
      let fits := take (room w) text in
      (if decide (length text ≤ room w)%nat
       then match (Json.iterencode o).2 with
            | Some e => Raise e
            | None => Ok ()
            end
       else Raise OSError,
       {| files := <[outfile env := fits]> (files w);
          open_files := open_files w;
          room := room w - length fits;
          trace := trace w ++ [EvOpen dat4; EvWrite fits; EvClose dat4] |})
    else (Raise OSError, log (EvOpen dat4) w).
Proof.
  unfold persist, with_open, bind, open_w, outfile.
  destruct (can_open env (components (os env) dat4)); [|done].
  unfold finally, json_dump.
  destruct (Json.iterencode o) as [text failure]. cbn [fst snd].
  unfold bind, write, close. cbn [files open_files room trace].
  rewrite lookup_insert_eq, insert_insert_eq. cbn [default app].
  destruct (decide (length text ≤ room w)%nat); [destruct failure|];
    unfold raise, ret; cbn [files open_files room trace];
    by rewrite remove_first_head, <- !app_assoc.
Qed.

(** ** The script, step by step *)

Lemma main_run c env w :
  main c env w
  = match reqHead c with
    | Raise e => (Raise e, w)
    | Ok h =>
        match network env (GMPapi c) h with
        | Raise e => (Raise e, log (EvGet (GMPapi c) h) w)
        | Ok r =>
            match json r with
            | Raise e => (Raise e, decoded c h r w)
            | Ok o =>
                match getitem o (lit "accountNumber") with
                | Raise e => (Raise e, decoded c h r w)
                | Ok _ =>
                    match getitem o (lit "intervals") with
                    | Raise e => (Raise e, decoded c h r w)
                    | Ok _ => persist o env (decoded c h r w)
                    end
                end
            end
        end
    end.
Proof.
  unfold main, bind, lift, requests_get, print, Response_json, subscript, decoded.
  destruct (reqHead c) as [h|e]; [|done].
  destruct (network env (GMPapi c) h) as [r|e]; [|done].
  destruct (json r) as [o|e]; [|done].
  destruct (getitem o (lit "accountNumber")); [|done].
  destruct (getitem o (lit "intervals")); done.
Qed.

Lemma trace_decoded c h r w :
  trace (decoded c h r w)
  = trace w ++ [EvGet (GMPapi c) h; EvPrint (PInt (status_code r));
                EvPrint (PTotalSeconds (elapsed r)); EvJson].
Proof. unfold decoded, log. cbn [trace]. by rewrite <- !app_assoc. Qed.

Lemma files_decoded c h r w : files (decoded c h r w) = files w.
Proof. reflexivity. Qed.

Lemma open_files_decoded c h r w : open_files (decoded c h r w) = open_files w.
Proof. reflexivity. Qed.

Lemma room_decoded c h r w : room (decoded c h r w) = room w.
Proof. reflexivity. Qed.

Lemma getitem_Ok o k v :
  getitem o k = Ok v ↔ ∃ items, o = PyDict items ∧ dict_get k items = Some v.
Proof.
  split.
  - destruct o; try done. cbn. destruct (dict_get k items) eqn:E; [|done].
    intros [= <-]. eauto.
  - intros (items & -> & H). cbn. by rewrite H.
Qed.

Lemma trace_persist o env w :
  trace (persist o env w).2 = trace w ++ persist_events o env w.
Proof.
  rewrite persist_run. unfold persist_events.
  by destruct (can_open env (outfile env)).
Qed.

Lemma events_run c env w :
  events c env w
  = match reqHead c with
    | Raise _ => []
    | Ok h =>
        EvGet (GMPapi c) h ::
        match network env (GMPapi c) h with
        | Raise _ => []
        | Ok r =>
            EvPrint (PInt (status_code r)) ::
            EvPrint (PTotalSeconds (elapsed r)) ::
            EvJson ::
            match json r with
            | Raise _ => []
            | Ok o =>
                match getitem o (lit "accountNumber"), getitem o (lit "intervals") with
                | Ok _, Ok _ => persist_events o env (decoded c h r w)
                | _, _ => []
                end
            end
        end
    end.
Proof.
  unfold events. rewrite main_run.
  destruct (reqHead c) as [h|e]; [|by rewrite drop_all].
  destruct (network env (GMPapi c) h) as [r|e];
    [|cbn [snd log trace]; by rewrite drop_app_length].
  destruct (json r) as [o|e];
    [|cbn [snd]; by rewrite trace_decoded, drop_app_length].
  destruct (getitem o (lit "accountNumber"));
    [|cbn [snd]; by rewrite trace_decoded, drop_app_length].
  destruct (getitem o (lit "intervals"));
    [|cbn [snd]; by rewrite trace_decoded, drop_app_length].
  rewrite trace_persist, trace_decoded, <- app_assoc.
  by rewrite drop_app_length.
Qed.

Lemma trace_main c env w :
  trace (main c env w).2 = trace w ++ events c env w.
Proof.
  rewrite events_run, main_run.
  destruct (reqHead c) as [h|e]; [|by rewrite app_nil_r].
  destruct (network env (GMPapi c) h) as [r|e]; [|done].
  destruct (json r) as [o|e]; [|cbn [snd]; by rewrite trace_decoded].
  destruct (getitem o (lit "accountNumber"));
    [|cbn [snd]; by rewrite trace_decoded].
  destruct (getitem o (lit "intervals"));
    [|cbn [snd]; by rewrite trace_decoded].
  by rewrite trace_persist, trace_decoded, <- app_assoc.
Qed.

Lemma stdout_main c env w :
  stdout (main c env w).2 = stdout w ++ prints (events c env w).
Proof. unfold stdout, prints. by rewrite trace_main, omap_app. Qed.

Lemma open_files_persist o env w :
  open_files (persist o env w).2 = open_files w.
Proof. rewrite persist_run. by destruct (can_open env (outfile env)). Qed.

Lemma open_files_main c env w :
  open_files (main c env w).2 = open_files w.
Proof.
  rewrite main_run.
  destruct (reqHead c) as [h|e]; [|done].
  destruct (network env (GMPapi c) h) as [r|e]; [|done].
  destruct (json r) as [o|e]; [|done].
  destruct (getitem o (lit "accountNumber")); [|done].
  destruct (getitem o (lit "intervals")); [|done].
  by rewrite open_files_persist.
Qed.

(** ** Successful runs *)

Lemma main_success c env w h r o :
  goes_well c env w h r o →
  main c env w
  = (Ok (),
     {| files := <[outfile env := dumps o]> (files w);
        open_files := open_files w;
        room := room w - length (dumps o);
        trace := trace w ++ [EvGet (GMPapi c) h;
                             EvPrint (PInt (status_code r));
                             EvPrint (PTotalSeconds (elapsed r));
                             EvJson; EvOpen dat4; EvWrite (dumps o);
                             EvClose dat4] |}).
Proof.
  intros (Hh & Hn & Hj & (items & -> & [v1 H1] & [v2 H2]) & Hopen & Henc & Hroom).
  rewrite main_run, Hh, Hn, Hj. cbn [getitem]. rewrite H1, H2.
  rewrite persist_run, Hopen. cbv zeta.
  rewrite room_decoded, files_decoded, open_files_decoded, trace_decoded.
  unfold dumps in *. rewrite Henc, decide_True by done.
  rewrite take_ge by done. by rewrite <- app_assoc.
Qed.

Lemma main_Ok_inv c env w :
  (main c env w).1 = Ok () → ∃ h r o, goes_well c env w h r o.
Proof.
  rewrite main_run. unfold goes_well.
  destruct (reqHead c) as [h|e] eqn:Hh; [|done].
  destruct (network env (GMPapi c) h) as [r|e] eqn:Hn; [|done].
  destruct (json r) as [o|e] eqn:Hj; [|done].
  destruct (getitem o (lit "accountNumber")) as [v1|] eqn:E1; [|done].
  destruct (getitem o (lit "intervals")) as [v2|] eqn:E2; [|done].
  apply getitem_Ok in E1 as (items & -> & E1).
  apply getitem_Ok in E2 as (items' & [= <-] & E2).
  rewrite persist_run.
  destruct (can_open env (outfile env)) eqn:Hopen; [|done]. cbv zeta. cbn [fst].
  rewrite room_decoded.
  destruct (decide _) as [Hroom|]; [|done].
  destruct (Json.iterencode (PyDict items)).2 eqn:Henc; [done|]. intros _.
  exists h, r, (PyDict items). repeat split; eauto.
Qed.

(** ** What is sent, and what the status code can change *)

Lemma requests_events c env w :
  requests (events c env w)
  = match reqHead c with
    | Ok h => [(GMPapi c, h)]
    | Raise _ => []
    end.
Proof.
  rewrite events_run.
  destruct (reqHead c) as [h|e]; [|done]. cbn [requests omap list_omap].
  destruct (network env (GMPapi c) h) as [r|?]; [|done]. cbn [omap list_omap].
  destruct (json r) as [o|?]; [|done].
  destruct (getitem o (lit "accountNumber")); [|done].
  destruct (getitem o (lit "intervals")); [|done].
  unfold persist_events. by destruct (can_open env (outfile env)).
Qed.

(** Two networks that answer with responses differing in the status code
    only lead to the same result and the same files. *)
Lemma status_code_no_influence c env1 env2 w h r1 r2 :
  os env1 = os env2 → can_open env1 = can_open env2 →
  reqHead c = Ok h →
  network env1 (GMPapi c) h = Ok r1 →
  network env2 (GMPapi c) h = Ok r2 →
  elapsed r1 = elapsed r2 → json r1 = json r2 →
  (main c env1 w).1 = (main c env2 w).1
  ∧ files (main c env1 w).2 = files (main c env2 w).2
  ∧ open_files (main c env1 w).2 = open_files (main c env2 w).2
  ∧ room (main c env1 w).2 = room (main c env2 w).2.
Proof.
  intros Hos Hopen Hh H1 H2 He Hj. rewrite !main_run, Hh, H1, H2, <- Hj.
  destruct (json r1) as [o|e]; [|done].
  destruct (getitem o (lit "accountNumber")); [|done].
  destruct (getitem o (lit "intervals")); [|done].
  rewrite !persist_run. unfold outfile. rewrite <- Hos, <- Hopen.
  destruct (can_open env1 (components (os env1) dat4)); [|done].
  cbv zeta. rewrite !room_decoded, !files_decoded, !open_files_decoded. done.
Qed.

(** ** The Authorization header *)

Lemma split_first_colon_app a b :
  58 ∉ a → split_first_colon (a ++ 58 :: b) = Some (a, b).
Proof.
  induction a as [|c a IH]; [done|].
  intros [Hc Ha]%not_elem_of_cons. cbn [app split_first_colon].
  rewrite (proj2 (Z.eqb_neq c 58)) by done. by rewrite IH.
Qed.

Lemma strip_prefix_app p s : strip_prefix p (p ++ s) = Some s.
Proof.
  unfold strip_prefix. rewrite take_app_length, decide_True by done.
  by rewrite drop_app_length.
Qed.

Lemma idSecret_eq c : idSecret c = apiKeyId c ++ 58 :: apiKeySecret c.
Proof. unfold idSecret, str_add. by rewrite <- app_assoc. Qed.

Lemma idSecret_scalar c :
  Forall is_scalar (apiKeyId c) → Forall is_scalar (apiKeySecret c) →
  Forall is_scalar (idSecret c).
Proof.
  intros Hi Hs. rewrite idSecret_eq. apply Forall_app. split; [done|].
  apply Forall_cons. split; [|done]. by split.
Qed.

(** The header, given the bytes of the credentials. *)
Lemma reqHead_bytes c bs :
  Utf8.encode (idSecret c) = Some bs →
  reqHead c = Ok [(lit "Authorization", lit "Basic " ++ Base64.encode bs)].
Proof.
  intros H. unfold reqHead, basic, b64Key, str_encode_utf8, str_of_bytes_utf8.
  rewrite H, utf8_decode_ascii; [done|].
  apply b64_encode_ascii. by eapply utf8_encode_bytes.
Qed.

(** The header cannot be built exactly when the credentials hold something
    UTF-8 cannot encode. *)
Lemma reqHead_raises c :
  Utf8.encode (idSecret c) = None → reqHead c = Raise UnicodeEncodeError.
Proof.
  intros H. unfold reqHead, b64Key, str_encode_utf8. by rewrite H.
Qed.

Lemma read_basic_auth_bytes s bs :
  Utf8.encode s = Some bs →
  read_basic_auth (lit "Basic " ++ Base64.encode bs) = split_first_colon s.
Proof.
  intros H. unfold read_basic_auth. rewrite strip_prefix_app. cbn [mbind option_bind].
  pose proof (utf8_encode_bytes _ _ H) as Hb.
  rewrite utf8_encode_ascii by (by apply b64_encode_ascii). cbn [mbind option_bind].
  rewrite b64_decode_encode by done. cbn [mbind option_bind].
  by rewrite (utf8_decode_encode _ _ H).
Qed.

Lemma split_first_colon_Some s a b :
  split_first_colon s = Some (a, b) → (58 ∉ a) ∧ s = a ++ 58 :: b.
Proof.
  revert a. induction s as [|c s IH]; intros a; [done|].
  cbn [split_first_colon]. destruct (Z.eqb_spec c 58) as [->|Hc].
  - intros [= <- <-]. split; [apply not_elem_of_nil | done].
  - destruct (split_first_colon s) as [[a' b']|]; [|done].
    cbn. intros [= <- <-]. destruct (IH a' eq_refl) as [Ha ->].
    split; [|done]. apply not_elem_of_cons. split; [lia | done].
Qed.

(* ================================================================= *)
(** * The specification, claim by claim *)

(** ** C2: the request URL *)

(** C2.  For every account, interval and dates, with nothing assumed about
    them, the assembled URL is the base URL, the account, "/", the
    interval, "?startDate=", the start date, "T00:00:00Z&endDate=", the end
    date and "T23:59:59Z&temp=f", each input as it is; and that URL is the
    one [requests.get] is called with whenever the script gets that far. *)
Theorem C2_url_is_template (c : Config) :
  GMPapi c
  = url_template (GMPaccount c) (requestInterval c) (startDate c) (endDate c)
  ∧ ∀ env w,
      requests (events c env w)
      = match reqHead c with
        | Ok h =>
            [(url_template (GMPaccount c) (requestInterval c)
                (startDate c) (endDate c), h)]
        | Raise _ => []
        end.
Proof.
  assert (GMPapi c
          = url_template (GMPaccount c) (requestInterval c) (startDate c)
              (endDate c)) as E.
  { unfold GMPapi, url_template, GMPapiURL, str_add. by rewrite <- !app_assoc. }
  split; [exact E|]. intros env w. by rewrite requests_events, <- E.
Qed.

(** ** C3: the Authorization header *)

(** C3, as stated, fails: with the key id [a:b] and the secret [c] the
    header is built, and reading it back splits at the colon inside the
    id. *)
Lemma C3_colon_in_id_is_not_recovered :
  let c := with_credentials (lit "a:b") (lit "c") in
  ∃ h, reqHead c = Ok [(lit "Authorization", h)]
       ∧ read_basic_auth h = Some (lit "a", lit "b:c")
       ∧ read_basic_auth h ≠ Some (apiKeyId c, apiKeySecret c).
Proof.
  exists (lit "Basic YTpiOmM="). repeat split; [vm_compute; reflexivity..|].
  vm_compute. discriminate.
Qed.

(** C3, amended.  When the key id and the secret are strings of Unicode
    scalar values, the header is "Basic " and the Base64 text of the UTF-8
    bytes of id, colon, secret; decoding the header and splitting at the
    first colon gives the id and the secret back exactly when the id holds
    no colon (a colon in the secret does no harm). *)
Theorem C3_header_and_round_trip (c : Config) :
  Forall is_scalar (apiKeyId c) →
  Forall is_scalar (apiKeySecret c) →
  ∃ bs,
    Utf8.encode (apiKeyId c ++ lit ":" ++ apiKeySecret c) = Some bs
    ∧ reqHead c = Ok [(lit "Authorization", lit "Basic " ++ Base64.encode bs)]
    ∧ (read_basic_auth (lit "Basic " ++ Base64.encode bs)
       = Some (apiKeyId c, apiKeySecret c)
       ↔ 58 ∉ apiKeyId c).
Proof.
  intros Hi Hs.
  destruct (utf8_encode_Some _ (idSecret_scalar c Hi Hs)) as [bs Hbs].
  exists bs. rewrite idSecret_eq in Hbs. split; [exact Hbs|].
  rewrite <- idSecret_eq in Hbs. split; [by apply reqHead_bytes|].
  rewrite (read_basic_auth_bytes _ _ Hbs), idSecret_eq. split.
  - by intros [? _]%split_first_colon_Some.
  - apply split_first_colon_app.
Qed.

Lemma C3_witness :
  ∃ bs,
    Utf8.encode (lit "user" ++ lit ":" ++ lit "pa:ss") = Some bs
    ∧ reqHead (with_credentials (lit "user") (lit "pa:ss"))
      = Ok [(lit "Authorization", lit "Basic " ++ Base64.encode bs)]
    ∧ (read_basic_auth (lit "Basic " ++ Base64.encode bs)
       = Some (lit "user", lit "pa:ss")
       ↔ 58 ∉ lit "user").
Proof.
  apply (C3_header_and_round_trip (with_credentials (lit "user") (lit "pa:ss")));
    apply Forall_forall; intros x Hx; vm_compute in Hx;
    repeat (apply elem_of_cons in Hx as [-> | Hx]; [by vm_compute|]);
    by apply elem_of_nil in Hx.
Defined.

(** ** C7: transport failures *)

(** C7.  When the GET fails at the network level, for whichever reason, the
    run ends with that transport error, the only thing that happened is the
    request, and every file is as it was: none is created, none is
    changed. *)
Theorem C7_transport_failure (c : Config) (env : Env) (w : World)
    (h : headers) (why : transport_failure) :
  reqHead c = Ok h →
  network env (GMPapi c) h = Raise (TransportError why) →
  (main c env w).1 = Raise (TransportError why)
  ∧ files (main c env w).2 = files w
  ∧ events c env w = [EvGet (GMPapi c) h].
Proof.
  intros Hh Hn. rewrite events_run, main_run, Hh, Hn. done.
Qed.

Lemma C7_witness :
  let env := mock Windows (Raise (TransportError ConnectionRefused)) in
  let w := fresh ∅ 1000 in
  (main shipped env w).1 = Raise (TransportError ConnectionRefused)
  ∧ files (main shipped env w).2 = files w
  ∧ events shipped env w = [EvGet (GMPapi shipped) shipped_headers].
Proof.
  apply (C7_transport_failure shipped
           (mock Windows (Raise (TransportError ConnectionRefused)))
           (fresh ∅ 1000) shipped_headers ConnectionRefused);
    reflexivity.
Defined.

(** ** C4: a missing key *)

(** C4.  When the body decodes to an object without [accountNumber] or
    without [intervals], the run ends with a [KeyError] for the first of
    the two that is missing, the file is never opened, and every file is as
    it was. *)
Theorem C4_missing_key (c : Config) (env : Env) (w : World)
    (h : headers) (r : Response) (items : list (str * pyobj)) :
  reqHead c = Ok h →
  network env (GMPapi c) h = Ok r →
  json r = Ok (PyDict items) →
  dict_get (lit "accountNumber") items = None
  ∨ dict_get (lit "intervals") items = None →
  (∃ k, (main c env w).1 = Raise (KeyError k)
        ∧ (k = lit "accountNumber" ∨ k = lit "intervals")
        ∧ dict_get k items = None)
  ∧ files (main c env w).2 = files w
  ∧ (∀ p, EvOpen p ∉ events c env w).
Proof.
  intros Hh Hn Hj Hmissing. rewrite events_run, main_run, Hh, Hn, Hj.
  cbn [getitem].
  destruct (dict_get (lit "accountNumber") items) as [v1|] eqn:E1.
  - destruct Hmissing as [?|E2]; [done|]. rewrite E2.
    split; [eauto 6|]. split; [done|].
    intros p Hp. repeat (apply elem_of_cons in Hp as [?|Hp]; [done|]).
    by apply elem_of_nil in Hp.
  - split; [eauto 6|]. split; [done|].
    intros p Hp. repeat (apply elem_of_cons in Hp as [?|Hp]; [done|]).
    by apply elem_of_nil in Hp.
Qed.

Lemma C4_witness :
  let env := mock Windows (Ok (respond 200 (Ok (PyDict [(lit "intervals", PyList [])])))) in
  let w := fresh ∅ 1000 in
  (∃ k, (main shipped env w).1 = Raise (KeyError k)
        ∧ (k = lit "accountNumber" ∨ k = lit "intervals")
        ∧ dict_get k [(lit "intervals", PyList [])] = None)
  ∧ files (main shipped env w).2 = files w
  ∧ (∀ p, EvOpen p ∉ events shipped env w).
Proof.
  apply (C4_missing_key shipped
           (mock Windows (Ok (respond 200 (Ok (PyDict [(lit "intervals", PyList [])])))))
           (fresh ∅ 1000) shipped_headers
           (respond 200 (Ok (PyDict [(lit "intervals", PyList [])])))
           [(lit "intervals", PyList [])]);
    [reflexivity | reflexivity | reflexivity | left; reflexivity].
Defined.

(** ** C1: the output file holds the response *)



(** ** C5: the status code is not looked at *)



(** ** C6: where the output goes *)




(** ** C8: the file handle *)

(** C8.  However the persist step ends, normally, with the encoder's
    [TypeError] or with an [OSError] from the write, no handle it opened is
    left open: if the file could be opened the step's last act is closing
    it, and if it could not there never was a handle.  The same holds for
    the whole script. *)
Theorem C8_handle_closed (o : pyobj) (env : Env) (w : World) :
  open_files (persist o env w).2 = open_files w
  ∧ (if can_open env (outfile env)
     then ∃ text,
            trace (persist o env w).2
            = trace w ++ [EvOpen dat4; EvWrite text; EvClose dat4]
     else (persist o env w).1 = Raise OSError
          ∧ trace (persist o env w).2 = trace w ++ [EvOpen dat4])
  ∧ ∀ c, open_files (main c env w).2 = open_files w.
Proof.
  split; [apply open_files_persist|]. split; [|intros c; apply open_files_main].
  rewrite persist_run. destruct (can_open env (outfile env)); [|done].
  by eexists.
Qed.

Example persist_type_error :
  let w' := (persist (PyDict [(lit "a", PyInt 1); (lit "b", PyObject)])
               (mock Windows (Raise OSError)) (fresh ∅ 1000)) in
  w'.1 = Raise TypeError
  ∧ open_files w'.2 = []
  ∧ trace w'.2 = [EvOpen dat4;
                  EvWrite (lit "{" ++ quoted "a" ++ lit ": 1, " ++ quoted "b" ++ lit ": ");
                  EvClose dat4].
Proof. vm_compute. done. Qed.

Example persist_disk_full :
  let w' := (persist example_body (mock Windows (Raise OSError)) (fresh ∅ 5)) in
  w'.1 = Raise OSError
  ∧ open_files w'.2 = []
  ∧ trace w'.2 = [EvOpen dat4; EvWrite (lit "{" ++ [34] ++ lit "acc"); EvClose dat4].
Proof. vm_compute. done. Qed.

(** ** C9: the diagnostics come first *)

(** C9.  On every run that receives a response, whatever happens later,
    the run does exactly this after the request: print the status code,
    print the elapsed seconds, and only then decode; nothing more is
    printed and the body is decoded once.  So the console shows both lines
    also when the run ends with a decode error or a [KeyError]. *)
Theorem C9_diagnostics_before_decoding (c : Config) (env : Env) (w : World)
    (h : headers) (r : Response) :
  reqHead c = Ok h →
  network env (GMPapi c) h = Ok r →
  (∃ rest,
     events c env w
     = [EvGet (GMPapi c) h; EvPrint (PInt (status_code r));
        EvPrint (PTotalSeconds (elapsed r)); EvJson] ++ rest
     ∧ (EvJson ∉ rest)
     ∧ (∀ x, EvPrint x ∉ rest))
  ∧ stdout (main c env w).2
    = stdout w ++ [PInt (status_code r); PTotalSeconds (elapsed r)].
Proof.
  intros Hh Hn.
  assert (∃ rest,
     events c env w
     = [EvGet (GMPapi c) h; EvPrint (PInt (status_code r));
        EvPrint (PTotalSeconds (elapsed r)); EvJson] ++ rest
     ∧ (EvJson ∉ rest) ∧ (∀ x, EvPrint x ∉ rest)) as (rest & E & HJ & HP).
  { rewrite events_run, Hh, Hn. eexists. split; [reflexivity|].
    assert (∀ o w0 e, (e = EvJson ∨ ∃ x, e = EvPrint x) →
              e ∉ persist_events o env w0) as Hpersist.
    { intros o w0 e He Hin. unfold persist_events in Hin.
      destruct (can_open env (outfile env));
        repeat (apply elem_of_cons in Hin as [->|Hin];
                [by destruct He as [?|[? ?]]|]);
        by apply elem_of_nil in Hin. }
    destruct (json r) as [o|?];
      [|split; [|intros x]; apply not_elem_of_nil].
    destruct (getitem o (lit "accountNumber"));
      [|split; [|intros x]; apply not_elem_of_nil].
    destruct (getitem o (lit "intervals"));
      [|split; [|intros x]; apply not_elem_of_nil].
    split; [|intros x]; apply Hpersist; eauto. }
  split; [by exists rest|].
  rewrite stdout_main, E. unfold prints. rewrite omap_app.
  cbn [omap list_omap app]. f_equal.
  assert (omap (λ e, match e with EvPrint x => Some x | _ => None end) rest = [])
    as ->; [|done].
  clear E HJ. induction rest as [|e rest IH]; [done|].
  cbn [omap list_omap]. destruct e; try (apply IH; intros x Hx;
    apply (HP x); by right).
  exfalso. apply (HP x). left.
Qed.

Lemma C9_witness :
  let env := mock Windows (Ok (respond 502 (Raise JSONDecodeError))) in
  let w := fresh ∅ 1000 in
  (∃ rest,
     events shipped env w
     = [EvGet (GMPapi shipped) shipped_headers; EvPrint (PInt 502);
        EvPrint (PTotalSeconds 250000); EvJson] ++ rest
     ∧ (EvJson ∉ rest)
     ∧ (∀ x, EvPrint x ∉ rest))
  ∧ stdout (main shipped env w).2
    = stdout w ++ [PInt 502; PTotalSeconds 250000].
Proof.
  apply (C9_diagnostics_before_decoding shipped
           (mock Windows (Ok (respond 502 (Raise JSONDecodeError))))
           (fresh ∅ 1000) shipped_headers
           (respond 502 (Raise JSONDecodeError)));
    reflexivity.
Defined.

Example key_error_after_diagnostics :
  let env := mock Windows (Ok (respond 200 (Ok (PyDict [(lit "intervals", PyList [])])))) in
  let w' := main shipped env (fresh ∅ 1000) in
  w'.1 = Raise (KeyError (lit "accountNumber"))
  ∧ stdout w'.2 = [PInt 200; PTotalSeconds 250000].
Proof. vm_compute. done. Qed.

(** ** C10: the request is a function of the configuration *)



(* ================================================================= *)
(** * Further properties of the script *)

(** ** Helpers *)

Lemma b64_char_alphabet i : 0 <= i < 64 → b64_alphabet (Base64.char i).
Proof. intros Hi. left. rewrite b64_val_char by done. by eexists. Qed.

Lemma b64_pad_alphabet : b64_alphabet Base64.pad.
Proof. by right. Qed.

Lemma b64_encode_alphabet bs :
  Forall is_byte bs → Forall b64_alphabet (Base64.encode bs).
Proof.
  unfold is_byte.
  induction bs as [|a|a b|a b c t IH] using list_ind3; intros H;
    repeat match goal with
    | H : Forall _ (_ :: _) |- _ => apply Forall_cons in H as [? H]
    end; cbn [Base64.encode];
    repeat first
      [ apply Forall_nil_2 | apply IH; assumption
      | apply Forall_cons; split;
        [first [apply b64_char_alphabet; lia | apply b64_pad_alphabet]|] ].
Qed.

Lemma b64_encode_length bs :
  length (Base64.encode bs) = (4 * ((length bs + 2) / 3))%nat.
Proof.
  induction bs as [|a|a b|a b c t IH] using list_ind3; try reflexivity.
  cbn [Base64.encode length]. rewrite IH.
  replace (S (S (S (length t))) + 2)%nat with (1 * 3 + (length t + 2))%nat by lia.
  rewrite Nat.div_add_l by done. lia.
Qed.

Lemma reqHead_Ok_inv c hs :
  reqHead c = Ok hs →
  ∃ bs, Utf8.encode (idSecret c) = Some bs
        ∧ hs = [(lit "Authorization", lit "Basic " ++ Base64.encode bs)].
Proof.
  destruct (Utf8.encode (idSecret c)) as [bs|] eqn:E.
  - rewrite (reqHead_bytes c bs E). intros [= <-]. by exists bs.
  - by rewrite (reqHead_raises c E).
Qed.

Lemma utf8_encode_inj s t bs :
  Utf8.encode s = Some bs → Utf8.encode t = Some bs → s = t.
Proof.
  intros Hs%utf8_decode_encode Ht%utf8_decode_encode. congruence.
Qed.

Lemma b64_encode_inj bs bt :
  Forall is_byte bs → Forall is_byte bt →
  Base64.encode bs = Base64.encode bt → bs = bt.
Proof.
  intros Hs%b64_decode_encode Ht%b64_decode_encode E.
  rewrite E in Hs. congruence.
Qed.

(** Whatever the encoder raises is a [TypeError]. *)
Lemma iterencode_list_failure first xs e :
  Forall (λ x, ∀ e, (Json.iterencode x).2 = Some e → e = TypeError) xs →
  (Json.iterencode_list first xs).2 = Some e → e = TypeError.
Proof.
  intros H. revert first. induction H as [|x xs Hx _ IH]; intros first; [done|].
  cbn [Json.iterencode_list]. unfold Json.and_then, Json.emit. cbn [fst snd].
  destruct (Json.iterencode x).2 as [e'|] eqn:E; cbn [fst snd].
  - intros [= <-]. by apply Hx.
  - apply IH.
Qed.

Lemma iterencode_dict_failure first items e :
  Forall (λ kv, ∀ e, (Json.iterencode kv.2).2 = Some e → e = TypeError) items →
  (Json.iterencode_dict first items).2 = Some e → e = TypeError.
Proof.
  intros H. revert first.
  induction H as [|[k v] items Hv _ IH]; intros first; [done|].
  cbn [Json.iterencode_dict]. unfold Json.and_then, Json.emit. cbn [fst snd].
  destruct (Json.iterencode v).2 as [e'|] eqn:E; cbn [fst snd].
  - intros [= <-]. by apply Hv.
  - apply IH.
Qed.

Lemma iterencode_failure o e :
  (Json.iterencode o).2 = Some e → e = TypeError.
Proof.
  revert e.
  induction o as [ |b|n|s|xs IH|items IH| ] using pyobj_ind'; intros e;
    try done.
  - by destruct b.
  - rewrite iterencode_PyList. destruct xs; [done|].
    rewrite emit_and_then. cbn [snd]. by apply iterencode_list_failure.
  - rewrite iterencode_PyDict. destruct items; [done|].
    rewrite emit_and_then. cbn [snd]. by apply iterencode_dict_failure.
  - by intros [= <-].
Qed.

(** The script once the body is an object with both keys: all that is left
    is the persist step. *)
Lemma main_persist c env w h r items :
  reqHead c = Ok h →
  network env (GMPapi c) h = Ok r →
  json r = Ok (PyDict items) →
  is_Some (dict_get (lit "accountNumber") items) →
  is_Some (dict_get (lit "intervals") items) →
  main c env w = persist (PyDict items) env (decoded c h r w).
Proof.
  intros Hh Hn Hj [v1 H1] [v2 H2]. rewrite main_run, Hh, Hn, Hj.
  cbn [getitem]. by rewrite H1, H2.
Qed.

(** ** The credentials and the header *)

(** X1.  When a credential holds something UTF-8 cannot encode (a lone
    surrogate), the script raises [UnicodeEncodeError] while it builds the
    header: no request is sent, nothing is printed and no file is
    touched. *)
Theorem X1_unencodable_credentials (c : Config) (env : Env) (w : World) :
  ¬ Forall is_scalar (apiKeyId c ++ apiKeySecret c) →
  main c env w = (Raise UnicodeEncodeError, w).
Proof.
  intros Hbad. rewrite main_run, reqHead_raises; [done|].
  destruct (Utf8.encode (idSecret c)) as [bs|] eqn:E; [|done].
  exfalso. apply Hbad. apply utf8_encode_scalar in E.
  rewrite idSecret_eq in E. apply Forall_app in E as [Hi Hs].
  apply Forall_cons in Hs as [_ Hs]. by apply Forall_app.
Qed.

Lemma X1_witness :
  main (with_credentials [0xD800] (lit "secret"))
    (mock Windows (Ok (respond 200 (Ok example_body)))) (fresh ∅ 1000)
  = (Raise UnicodeEncodeError, fresh ∅ 1000).
Proof.
  apply (X1_unencodable_credentials (with_credentials [0xD800] (lit "secret"))).
  intros H. apply Forall_cons in H as [[_ H] _]. vm_compute in H. discriminate H.
Defined.

(** X2.  Whenever the header is built it is the single entry
    [Authorization], and its value is "Basic " followed by Base64 text
    only: digits of the Base64 alphabet and padding, four characters for
    every three bytes of the credentials.  No credential can put a line
    break or any other character into the header. *)
Theorem X2_header_is_base64_text (c : Config) (hs : headers) :
  reqHead c = Ok hs →
  ∃ bs key,
    Utf8.encode (idSecret c) = Some bs
    ∧ hs = [(lit "Authorization", lit "Basic " ++ key)]
    ∧ Forall b64_alphabet key
    ∧ length key = (4 * ((length bs + 2) / 3))%nat.
Proof.
  intros (bs & Hbs & ->)%reqHead_Ok_inv. exists bs, (Base64.encode bs).
  repeat split; [done| |apply b64_encode_length].
  apply b64_encode_alphabet. by eapply utf8_encode_bytes.
Qed.

Lemma X2_witness :
  ∃ bs key,
    Utf8.encode (idSecret (with_credentials (lit "user") (lit "pa:ss"))) = Some bs
    ∧ [(lit "Authorization", lit "Basic dXNlcjpwYTpzcw==")]
      = [(lit "Authorization", lit "Basic " ++ key)]
    ∧ Forall b64_alphabet key
    ∧ length key = (4 * ((length bs + 2) / 3))%nat.
Proof.
  apply (X2_header_is_base64_text (with_credentials (lit "user") (lit "pa:ss"))).
  vm_compute. reflexivity.
Defined.

(** X3.  The id and the secret are joined by a bare colon, so the header
    does not tell where the id ends: moving the text after a colon of the
    id over to the secret gives the same header. *)
Theorem X3_colon_makes_credentials_collide (c1 c2 : Config) (a b s : str) :
  apiKeyId c1 = a ++ lit ":" ++ b →
  apiKeySecret c1 = s →
  apiKeyId c2 = a →
  apiKeySecret c2 = b ++ lit ":" ++ s →
  reqHead c1 = reqHead c2.
Proof.
  intros H1 H2 H3 H4. unfold reqHead, b64Key.
  assert (idSecret c1 = idSecret c2) as ->; [|done].
  rewrite !idSecret_eq, H1, H2, H3, H4.
  change (lit ":") with [58]. by rewrite <- !app_assoc.
Qed.

Lemma X3_witness :
  reqHead (with_credentials (lit "a:b") (lit "c"))
  = reqHead (with_credentials (lit "a") (lit "b:c")).
Proof.
  apply (X3_colon_makes_credentials_collide
           (with_credentials (lit "a:b") (lit "c"))
           (with_credentials (lit "a") (lit "b:c"))
           (lit "a") (lit "b") (lit "c"));
    reflexivity.
Defined.

(** X4.  Apart from that, nothing is lost: two configurations that get the
    same header have the same id, colon, secret string. *)
Theorem X4_header_determines_joined_credentials (c1 c2 : Config) (hs : headers) :
  reqHead c1 = Ok hs →
  reqHead c2 = Ok hs →
  apiKeyId c1 ++ lit ":" ++ apiKeySecret c1
  = apiKeyId c2 ++ lit ":" ++ apiKeySecret c2.
Proof.
  intros (bs1 & E1 & ->)%reqHead_Ok_inv (bs2 & E2 & [= Hb])%reqHead_Ok_inv.
  apply b64_encode_inj in Hb; [|by eapply utf8_encode_bytes..]. subst bs2.
  pose proof (utf8_encode_inj _ _ _ E1 E2) as H.
  by rewrite !idSecret_eq in H.
Qed.

Lemma X4_witness :
  apiKeyId (with_credentials (lit "a:b") (lit "c")) ++ lit ":"
    ++ apiKeySecret (with_credentials (lit "a:b") (lit "c"))
  = apiKeyId (with_credentials (lit "a") (lit "b:c")) ++ lit ":"
    ++ apiKeySecret (with_credentials (lit "a") (lit "b:c")).
Proof.
  apply (X4_header_determines_joined_credentials
           (with_credentials (lit "a:b") (lit "c"))
           (with_credentials (lit "a") (lit "b:c"))
           [(lit "Authorization", lit "Basic YTpiOmM=")]);
    vm_compute; reflexivity.
Defined.

(** ** What can go wrong after the response *)

(** X5.  When [.json()] raises, the run ends with that exception right
    after the two diagnostics: the file is never opened and every file is
    as it was. *)
Theorem X5_decode_error (c : Config) (env : Env) (w : World)
    (h : headers) (r : Response) (e : exn) :
  reqHead c = Ok h →
  network env (GMPapi c) h = Ok r →
  json r = Raise e →
  (main c env w).1 = Raise e
  ∧ files (main c env w).2 = files w
  ∧ events c env w
    = [EvGet (GMPapi c) h; EvPrint (PInt (status_code r));
       EvPrint (PTotalSeconds (elapsed r)); EvJson].
Proof.
  intros Hh Hn Hj. by rewrite events_run, main_run, Hh, Hn, Hj.
Qed.

Lemma X5_witness :
  let env := mock Windows (Ok (respond 502 (Raise JSONDecodeError))) in
  let w := fresh ∅ 1000 in
  (main shipped env w).1 = Raise JSONDecodeError
  ∧ files (main shipped env w).2 = files w
  ∧ events shipped env w
    = [EvGet (GMPapi shipped) shipped_headers; EvPrint (PInt 502);
       EvPrint (PTotalSeconds 250000); EvJson].
Proof.
  apply (X5_decode_error shipped
           (mock Windows (Ok (respond 502 (Raise JSONDecodeError))))
           (fresh ∅ 1000) shipped_headers
           (respond 502 (Raise JSONDecodeError)) JSONDecodeError);
    reflexivity.
Defined.

(** X6.  When the body is valid JSON but no object (a list, a string, a
    number, [true], [false] or [null]), the first subscript raises
    [TypeError]: the file is never opened and every file is as it was. *)
Theorem X6_body_is_no_object (c : Config) (env : Env) (w : World)
    (h : headers) (r : Response) (o : pyobj) :
  reqHead c = Ok h →
  network env (GMPapi c) h = Ok r →
  json r = Ok o →
  (∀ items, o ≠ PyDict items) →
  (main c env w).1 = Raise TypeError
  ∧ files (main c env w).2 = files w
  ∧ events c env w
    = [EvGet (GMPapi c) h; EvPrint (PInt (status_code r));
       EvPrint (PTotalSeconds (elapsed r)); EvJson].
Proof.
  intros Hh Hn Hj Ho. rewrite events_run, main_run, Hh, Hn, Hj.
  destruct o; try done. by destruct (Ho items).
Qed.

Lemma X6_witness :
  let env := mock Windows (Ok (respond 200 (Ok (PyList [PyInt 1; PyInt 2])))) in
  let w := fresh ∅ 1000 in
  (main shipped env w).1 = Raise TypeError
  ∧ files (main shipped env w).2 = files w
  ∧ events shipped env w
    = [EvGet (GMPapi shipped) shipped_headers; EvPrint (PInt 200);
       EvPrint (PTotalSeconds 250000); EvJson].
Proof.
  apply (X6_body_is_no_object shipped
           (mock Windows (Ok (respond 200 (Ok (PyList [PyInt 1; PyInt 2])))))
           (fresh ∅ 1000) shipped_headers
           (respond 200 (Ok (PyList [PyInt 1; PyInt 2])))
           (PyList [PyInt 1; PyInt 2]));
    [reflexivity | reflexivity | reflexivity | discriminate].
Defined.

(** X7.  The two keys are looked up in the order of the source: a body
    without [accountNumber] ends the run with the [KeyError] of
    [accountNumber], also when [intervals] is missing too; the [KeyError]
    of [intervals] is raised only when [accountNumber] is there. *)
Theorem X7_key_lookup_order (c : Config) (env : Env) (w : World)
    (h : headers) (r : Response) (items : list (str * pyobj)) :
  reqHead c = Ok h →
  network env (GMPapi c) h = Ok r →
  json r = Ok (PyDict items) →
  (dict_get (lit "accountNumber") items = None →
   (main c env w).1 = Raise (KeyError (lit "accountNumber")))
  ∧ (is_Some (dict_get (lit "accountNumber") items) →
     dict_get (lit "intervals") items = None →
     (main c env w).1 = Raise (KeyError (lit "intervals"))).
Proof.
  intros Hh Hn Hj. rewrite main_run, Hh, Hn, Hj. cbn [getitem]. split.
  - by intros ->.
  - intros [v ->] ->. done.
Qed.

Lemma X7_witness :
  let env := mock Windows (Ok (respond 200 (Ok (PyDict [])))) in
  let w := fresh ∅ 1000 in
  (dict_get (lit "accountNumber") [] = None →
   (main shipped env w).1 = Raise (KeyError (lit "accountNumber")))
  ∧ (is_Some (dict_get (lit "accountNumber") []) →
     dict_get (lit "intervals") [] = None →
     (main shipped env w).1 = Raise (KeyError (lit "intervals"))).
Proof.
  apply (X7_key_lookup_order shipped
           (mock Windows (Ok (respond 200 (Ok (PyDict [])))))
           (fresh ∅ 1000) shipped_headers (respond 200 (Ok (PyDict []))) []);
    reflexivity.
Defined.

(** X8.  When the file cannot be opened for writing, the run ends with
    [OSError] after everything else went well: both diagnostics are
    printed, the body is decoded, nothing is written and no handle is
    open. *)
Theorem X8_open_fails (c : Config) (env : Env) (w : World)
    (h : headers) (r : Response) (items : list (str * pyobj)) :
  reqHead c = Ok h →
  network env (GMPapi c) h = Ok r →
  json r = Ok (PyDict items) →
  is_Some (dict_get (lit "accountNumber") items) →
  is_Some (dict_get (lit "intervals") items) →
  can_open env (outfile env) = false →
  (main c env w).1 = Raise OSError
  ∧ files (main c env w).2 = files w
  ∧ open_files (main c env w).2 = open_files w
  ∧ events c env w
    = [EvGet (GMPapi c) h; EvPrint (PInt (status_code r));
       EvPrint (PTotalSeconds (elapsed r)); EvJson; EvOpen dat4].
Proof.
  intros Hh Hn Hj H1 H2 Hopen. unfold events.
  rewrite (main_persist c env w h r items) by done.
  rewrite persist_run, Hopen. cbn [fst snd log files open_files trace].
  rewrite trace_decoded, <- app_assoc, drop_app_length. done.
Qed.

Lemma X8_witness :
  let env := read_only Windows (Ok (respond 200 (Ok example_body))) in
  let w := fresh ∅ 1000 in
  (main shipped env w).1 = Raise OSError
  ∧ files (main shipped env w).2 = files w
  ∧ open_files (main shipped env w).2 = open_files w
  ∧ events shipped env w
    = [EvGet (GMPapi shipped) shipped_headers; EvPrint (PInt 200);
       EvPrint (PTotalSeconds 250000); EvJson; EvOpen dat4].
Proof.
  apply (X8_open_fails shipped
           (read_only Windows (Ok (respond 200 (Ok example_body))))
           (fresh ∅ 1000) shipped_headers (respond 200 (Ok example_body))
           [(lit "accountNumber", PyStr (lit "A1"));
            (lit "intervals", PyList [PyInt 1; PyInt 2; PyInt 3])]);
    [reflexivity | reflexivity | reflexivity | by eexists | by eexists
    | reflexivity].
Defined.

(** X9.  The file is opened, and so cut to nothing, before the encoder
    runs.  When the decoded object holds something [json.dump] cannot
    write, the run ends with [TypeError], and the file is left with the
    text written up to that point in place of whatever it held before; its
    handle is closed. *)
Theorem X9_failed_dump_leaves_partial_file (c : Config) (env : Env) (w : World)
    (h : headers) (r : Response) (items : list (str * pyobj)) :
  reqHead c = Ok h →
  network env (GMPapi c) h = Ok r →
  json r = Ok (PyDict items) →
  is_Some (dict_get (lit "accountNumber") items) →
  is_Some (dict_get (lit "intervals") items) →
  can_open env (outfile env) = true →
  (Json.iterencode (PyDict items)).2 ≠ None →
  (length (Json.iterencode (PyDict items)).1 ≤ room w)%nat →
  (main c env w).1 = Raise TypeError
  ∧ files (main c env w).2
    = <[outfile env := (Json.iterencode (PyDict items)).1]> (files w)
  ∧ open_files (main c env w).2 = open_files w.
Proof.
  intros Hh Hn Hj H1 H2 Hopen Hfail Hroom.
  rewrite (main_persist c env w h r items) by done.
  rewrite persist_run, Hopen. cbv zeta.
  rewrite room_decoded, files_decoded, open_files_decoded.
  rewrite decide_True by done. rewrite take_ge by done. cbn [fst snd files open_files].
  destruct (Json.iterencode (PyDict items)).2 as [e|] eqn:E; [|done].
  by rewrite (iterencode_failure _ _ E).
Qed.

Lemma X9_witness :
  let env := mock Windows (Ok (respond 200 (Ok unwritable_body))) in
  let w := fresh {[ [lit ".."; lit "dat4.json"] := lit "old content" ]} 1000 in
  (main shipped env w).1 = Raise TypeError
  ∧ files (main shipped env w).2
    = <[outfile env := (Json.iterencode unwritable_body).1]> (files w)
  ∧ open_files (main shipped env w).2 = open_files w.
Proof.
  apply (X9_failed_dump_leaves_partial_file shipped
           (mock Windows (Ok (respond 200 (Ok unwritable_body))))
           (fresh {[ [lit ".."; lit "dat4.json"] := lit "old content" ]} 1000)
           shipped_headers (respond 200 (Ok unwritable_body))
           [(lit "accountNumber", PyStr (lit "A1"));
            (lit "intervals", PyList [PyInt 1; PyObject; PyInt 3])]);
    [ reflexivity | reflexivity | reflexivity | by eexists | by eexists
    | reflexivity | vm_compute; discriminate | vm_compute; lia ].
Defined.

(** ** What every run respects *)

(** X10.  The file is opened only once everything before it went well: if
    a run opens a file at all, it is the one the literal names, the header
    was built, a response was received, and its body decoded to an object
    that holds both keys. *)
Theorem X10_open_only_after_both_keys (c : Config) (env : Env) (w : World)
    (p : str) :
  EvOpen p ∈ events c env w →
  p = dat4
  ∧ ∃ h r items,
      reqHead c = Ok h
      ∧ network env (GMPapi c) h = Ok r
      ∧ json r = Ok (PyDict items)
      ∧ is_Some (dict_get (lit "accountNumber") items)
      ∧ is_Some (dict_get (lit "intervals") items).
Proof.
  rewrite events_run.
  destruct (reqHead c) as [h|e] eqn:Hh; [|by intros ?%elem_of_nil].
  destruct (network env (GMPapi c) h) as [r|e] eqn:Hn.
  2:{ intros Hp. repeat (apply elem_of_cons in Hp as [?|Hp]; [done|]).
      by apply elem_of_nil in Hp. }
  destruct (json r) as [o|e] eqn:Hj.
  2:{ intros Hp. repeat (apply elem_of_cons in Hp as [?|Hp]; [done|]).
      by apply elem_of_nil in Hp. }
  destruct (getitem o (lit "accountNumber")) as [v1|] eqn:E1.
  2:{ intros Hp. repeat (apply elem_of_cons in Hp as [?|Hp]; [done|]).
      by apply elem_of_nil in Hp. }
  destruct (getitem o (lit "intervals")) as [v2|] eqn:E2.
  2:{ intros Hp. repeat (apply elem_of_cons in Hp as [?|Hp]; [done|]).
      by apply elem_of_nil in Hp. }
  apply getitem_Ok in E1 as (items & -> & E1).
  apply getitem_Ok in E2 as (items' & [= <-] & E2).
  intros Hp. split.
  - do 4 (apply elem_of_cons in Hp as [?|Hp]; [done|]).
    unfold persist_events in Hp. destruct (can_open env (outfile env));
      repeat (apply elem_of_cons in Hp as [Hp|Hp]; [by try injection Hp|]);
      by apply elem_of_nil in Hp.
  - exists h, r, items. eauto 10.
Qed.

Lemma X10_witness :
  dat4 = dat4
  ∧ ∃ h r items,
      reqHead shipped = Ok h
      ∧ network (mock Windows (Ok (respond 200 (Ok example_body))))
          (GMPapi shipped) h = Ok r
      ∧ json r = Ok (PyDict items)
      ∧ is_Some (dict_get (lit "accountNumber") items)
      ∧ is_Some (dict_get (lit "intervals") items).
Proof.
  apply (X10_open_only_after_both_keys shipped
           (mock Windows (Ok (respond 200 (Ok example_body))))
           (fresh ∅ 1000) dat4).
  vm_compute. do 4 right. left.
Defined.

(** X11.  Whatever happens, a run changes no file but the output file:
    every other file holds after the run what it held before. *)
Theorem X11_no_other_file_changes (c : Config) (env : Env) (w : World)
    (loc : location) :
  loc ≠ outfile env →
  files (main c env w).2 !! loc = files w !! loc.
Proof.
  intros Hloc. rewrite main_run.
  destruct (reqHead c) as [h|e]; [|done].
  destruct (network env (GMPapi c) h) as [r|e]; [|done].
  destruct (json r) as [o|e]; [|done].
  destruct (getitem o (lit "accountNumber")); [|done].
  destruct (getitem o (lit "intervals")); [|done].
  rewrite persist_run. destruct (can_open env (outfile env)); [|done].
  cbn [snd files]. by rewrite lookup_insert_ne.
Qed.

Lemma X11_witness :
  let env := mock Windows (Ok (respond 200 (Ok example_body))) in
  let w := fresh {[ [lit "notes.txt"] := lit "keep" ]} 1000 in
  files (main shipped env w).2 !! [lit "notes.txt"] = files w !! [lit "notes.txt"].
Proof.
  apply (X11_no_other_file_changes shipped
           (mock Windows (Ok (respond 200 (Ok example_body))))
           (fresh {[ [lit "notes.txt"] := lit "keep" ]} 1000) [lit "notes.txt"]).
  vm_compute. discriminate.
Defined.

(** ** Runs that end normally *)




(** X14.  What a normal run leaves in the output file is one line of
    printable ASCII: [json.dump] escapes every other character of the
    response, so neither the encoding of the text file nor its line ends
    can change the content. *)
Theorem X14_output_is_printable_ascii (c : Config) (env : Env) (w : World)
    (h : headers) (r : Response) (items : list (str * pyobj)) :
  reqHead c = Ok h →
  network env (GMPapi c) h = Ok r →
  json r = Ok (PyDict items) →
  json_value (PyDict items) →
  is_Some (dict_get (lit "accountNumber") items) →
  is_Some (dict_get (lit "intervals") items) →
  can_open env (outfile env) = true →
  (length (dumps (PyDict items)) ≤ room w)%nat →
  ∃ text,
    files (main c env w).2 !! outfile env = Some text
    ∧ Forall printable text.
Proof.
  intros Hh Hn Hj Hv H1 H2 Hopen Hroom.
  rewrite (main_success c env w h r (PyDict items));
    [|repeat split; eauto using iterencode_ok].
  exists (dumps (PyDict items)). cbn [snd files].
  split; [apply lookup_insert_eq | by apply dumps_printable].
Qed.

Lemma X14_witness :
  let env := mock Windows (Ok (respond 200 (Ok example_body))) in
  let w := fresh ∅ 1000 in
  ∃ text,
    files (main shipped env w).2 !! outfile env = Some text
    ∧ Forall printable text.
Proof.
  apply (X14_output_is_printable_ascii shipped
           (mock Windows (Ok (respond 200 (Ok example_body))))
           (fresh ∅ 1000) shipped_headers (respond 200 (Ok example_body))
           [(lit "accountNumber", PyStr (lit "A1"));
            (lit "intervals", PyList [PyInt 1; PyInt 2; PyInt 3])]);
    [ reflexivity | reflexivity | reflexivity
    | apply json_valueb_sound; vm_compute; reflexivity
    | by eexists | by eexists | reflexivity
    | vm_compute; lia ].
Defined.

(** X15.  The status code and the elapsed time are printed and never read
    again: two responses with the same body, whatever their status codes
    and times, end the run the same way and leave the same files, the same
    open handles and the same room on the disk. *)
Theorem X15_diagnostics_do_not_steer (c : Config) (env1 env2 : Env) (w : World)
    (h : headers) (r1 r2 : Response) :
  os env1 = os env2 →
  can_open env1 = can_open env2 →
  reqHead c = Ok h →
  network env1 (GMPapi c) h = Ok r1 →
  network env2 (GMPapi c) h = Ok r2 →
  json r1 = json r2 →
  (main c env1 w).1 = (main c env2 w).1
  ∧ files (main c env1 w).2 = files (main c env2 w).2
  ∧ open_files (main c env1 w).2 = open_files (main c env2 w).2
  ∧ room (main c env1 w).2 = room (main c env2 w).2.
Proof.
  intros Hos Hopen Hh H1 H2 Hj. rewrite !main_run, Hh, H1, H2, <- Hj.
  destruct (json r1) as [o|e]; [|done].
  destruct (getitem o (lit "accountNumber")); [|done].
  destruct (getitem o (lit "intervals")); [|done].
  rewrite !persist_run. unfold outfile. rewrite <- Hos, <- Hopen.
  destruct (can_open env1 (components (os env1) dat4)); [|done].
  cbv zeta. rewrite !room_decoded, !files_decoded, !open_files_decoded. done.
Qed.

Lemma X15_witness :
  let env1 := mock Windows (Ok {| status_code := 200; elapsed := 120000;
                                  json := Ok example_body |}) in
  let env2 := mock Windows (Ok {| status_code := 503; elapsed := 9000000;
                                  json := Ok example_body |}) in
  let w := fresh ∅ 1000 in
  (main shipped env1 w).1 = (main shipped env2 w).1
  ∧ files (main shipped env1 w).2 = files (main shipped env2 w).2
  ∧ open_files (main shipped env1 w).2 = open_files (main shipped env2 w).2
  ∧ room (main shipped env1 w).2 = room (main shipped env2 w).2.
Proof.
  apply (X15_diagnostics_do_not_steer shipped
           (mock Windows (Ok {| status_code := 200; elapsed := 120000;
                                json := Ok example_body |}))
           (mock Windows (Ok {| status_code := 503; elapsed := 9000000;
                                json := Ok example_body |}))
           (fresh ∅ 1000) shipped_headers
           {| status_code := 200; elapsed := 120000; json := Ok example_body |}
           {| status_code := 503; elapsed := 9000000; json := Ok example_body |});
    reflexivity.
Defined.
